(** * Contact-point hooks of the unified alerting UI

    A shallow embedding of
    [public/app/features/alerting/unified/components/contact-points/useContactPoints.tsx]
    and the properties its specification states about it. *)

From Stdlib Require Import NArith String Ascii Bool.
From stdpp Require Import gmap list option.

Local Open Scope N_scope.

(** ** The JavaScript values the hooks compute with *)

Module JS.

(** A JavaScript string is a sequence of 16-bit code units. *)
Definition jsstring := list N.

Fixpoint str (s : string) : jsstring :=
  match s with
  | EmptyString => []
  | String a rest => N_of_ascii a :: str rest
  end.

(** [a === b] on strings. *)
Definition strict_eq (a b : jsstring) : bool := bool_decide (a = b).

(** What an expression can throw, or a promise reject with. *)
Inductive Error :=
| URIError
| TypeError
| RequestFailed.

Inductive Result (A : Type) :=
| Ok (a : A)
| Throw (e : Error).
Arguments Ok {A} a.
Arguments Throw {A} e.

Definition rbind {A B} (r : Result A) (k : A -> Result B) : Result B :=
  match r with
  | Ok a => k a
  | Throw e => Throw e
  end.

(** Truthiness of the optional values the hooks test with [!], [||], [&&]. *)
Definition truthy_bool (b : option bool) : bool := default false b.
Definition truthy_string (s : option jsstring) : bool :=
  match s with
  | Some (_ :: _) => true
  | _ => false
  end.

(** *** [decodeURIComponent] (ECMA-262, Decode with an empty preserve set) *)

Definition hex_digit (c : N) : option N :=
  if (48 <=? c) && (c <=? 57) then Some (c - 48)
  else if (65 <=? c) && (c <=? 70) then Some (c - 55)
  else if (97 <=? c) && (c <=? 102) then Some (c - 87)
  else None.

Definition ParseHexOctet (h l : N) : option N :=
  match hex_digit h, hex_digit l with
  | Some a, Some b => Some (N.lor (N.shiftl a 4) b)
  | _, _ => None
  end.

(** One escape [%XY] read from three code units. *)
Definition escape_octet (p h l : N) : option N :=
  if p =? 37 then ParseHexOctet h l else None.

(** The number of leading 1 bits of an octet. *)
Definition leading_ones (b : N) : nat :=
  if b <? 0x80 then 0%nat
  else if b <? 0xC0 then 1%nat
  else if b <? 0xE0 then 2%nat
  else if b <? 0xF0 then 3%nat
  else if b <? 0xF8 then 4%nat
  else 5%nat.

Definition is_continuation (b : N) : bool := N.land b 0xC0 =? 0x80.

Definition payload (b : N) : N := N.land b 0x3F.

(** The code point a well-formed UTF-8 sequence encodes: continuation
    octets only after the first, no overlong form, no surrogate, nothing
    above U+10FFFF. *)
Definition utf8_code_point (octets : list N) : option N :=
  match octets with
  | [b0; b1] =>
      let v := N.lor (N.shiftl (N.land b0 0x1F) 6) (payload b1) in
      if is_continuation b1 && (0x80 <=? v) then Some v else None
  | [b0; b1; b2] =>
      let v := N.lor (N.shiftl (N.land b0 0x0F) 12)
                 (N.lor (N.shiftl (payload b1) 6) (payload b2)) in
      if is_continuation b1 && is_continuation b2 && (0x800 <=? v)
         && negb ((0xD800 <=? v) && (v <=? 0xDFFF))
      then Some v else None
  | [b0; b1; b2; b3] =>
      let v := N.lor (N.shiftl (N.land b0 0x07) 18)
                 (N.lor (N.shiftl (payload b1) 12)
                    (N.lor (N.shiftl (payload b2) 6) (payload b3))) in
      if is_continuation b1 && is_continuation b2 && is_continuation b3
         && (0x10000 <=? v) && (v <=? 0x10FFFF)
      then Some v else None
  | _ => None
  end.

Definition UTF16EncodeCodePoint (cp : N) : jsstring :=
  if cp <=? 0xFFFF then [cp]
  else [N.shiftr (cp - 0x10000) 10 + 0xD800; N.land (cp - 0x10000) 0x3FF + 0xDC00].

Definition decoded (octets : list N) (rest : Result jsstring) : Result jsstring :=
  match utf8_code_point octets with
  | Some cp => rbind rest (fun r => Ok (UTF16EncodeCodePoint cp ++ r))
  | None => Throw URIError
  end.

Fixpoint decodeURIComponent (s : jsstring) : Result jsstring :=
  match s with
  | [] => Ok []
  | c :: t =>
      if c =? 37 then
        match t with
        | h :: l :: t1 =>
            match ParseHexOctet h l with
            | None => Throw URIError
            | Some b =>
                match leading_ones b with
                | 0%nat => rbind (decodeURIComponent t1) (fun r => Ok (b :: r))
                | 2%nat =>
                    match t1 with
                    | p1 :: h1 :: l1 :: t2 =>
                        match escape_octet p1 h1 l1 with
                        | Some b1 => decoded [b; b1] (decodeURIComponent t2)
                        | None => Throw URIError
                        end
                    | _ => Throw URIError
                    end
                | 3%nat =>
                    match t1 with
                    | p1 :: h1 :: l1 :: p2 :: h2 :: l2 :: t3 =>
                        match escape_octet p1 h1 l1, escape_octet p2 h2 l2 with
                        | Some b1, Some b2 => decoded [b; b1; b2] (decodeURIComponent t3)
                        | _, _ => Throw URIError
                        end
                    | _ => Throw URIError
                    end
                | 4%nat =>
                    match t1 with
                    | p1 :: h1 :: l1 :: p2 :: h2 :: l2 :: p3 :: h3 :: l3 :: t4 =>
                        match escape_octet p1 h1 l1, escape_octet p2 h2 l2,
                              escape_octet p3 h3 l3 with
                        | Some b1, Some b2, Some b3 =>
                            decoded [b; b1; b2; b3] (decodeURIComponent t4)
                        | _, _, _ => Throw URIError
                        end
                    | _ => Throw URIError
                    end
                | _ => Throw URIError
                end
            end
        | _ => Throw URIError
        end
      else rbind (decodeURIComponent t) (fun r => Ok (c :: r))
  end.

End JS.
Import JS.

(** ** Data model *)

(** An integration of a contact point: a channel type with its settings and,
    when it is managed from outside the UI, a provenance marker. *)
Record GrafanaManagedReceiverConfig := {
  cfg_uid : option jsstring;
  cfg_name : jsstring;
  cfg_type : jsstring;
  provenance : option jsstring;
  disableResolveMessage : bool;
  settings : list (jsstring * jsstring);
}.

(** [Receiver] is the union of [GrafanaManagedContactPoint] and the receiver
    of an external Alertmanager; an optional property that is absent reads
    as [undefined], here [None].  The [*_configs] keys of an external
    Alertmanager are carried uninterpreted. *)
Record Receiver := {
  id : option jsstring;
  name : jsstring;
  provisioned : option bool;
  grafana_managed_receiver_configs : option (list GrafanaManagedReceiverConfig);
  cloud_configs : list (jsstring * jsstring);
}.

Definition GrafanaManagedContactPoint := Receiver.

(** The properties of the normalised contact point the hooks hand on. *)
Inductive Field := f_id | f_name | f_provisioned | f_grafana_managed_receiver_configs.

(** The fields that read as something else than [undefined]. *)
Definition exposed_fields (cp : GrafanaManagedContactPoint) : list Field :=
  (if id cp is Some _ then [f_id] else [])
  ++ [f_name]
  ++ (if provisioned cp is Some _ then [f_provisioned] else [])
  ++ (if grafana_managed_receiver_configs cp is Some _
      then [f_grafana_managed_receiver_configs] else []).

Record AlertmanagerConfig := {
  receivers : option (list Receiver);
  am_rest : list (jsstring * jsstring);
}.

Record AlertManagerCortexConfig := {
  template_files : list (jsstring * jsstring);
  alertmanager_config : AlertmanagerConfig;
}.

(** The structured (k8s) receiver resource. *)
Record ObjectMeta := {
  meta_name : option jsstring;
  meta_uid : option jsstring;
  annotations : list (jsstring * jsstring);
}.

Record ReceiverSpec := {
  title : jsstring;
  integrations : list GrafanaManagedReceiverConfig;
}.

Record K8sReceiver := {
  metadata : option ObjectMeta;
  spec : ReceiverSpec;
}.

Record ReceiverList := { items : list K8sReceiver }.

(** What a query hook returns: the loading flag, the data when there is
    some, and the error it passes through. *)
Record QueryResult (T : Type) := {
  isLoading : bool;
  data : option T;
  error : option jsstring;
}.
Arguments isLoading {T} _.
Arguments data {T} _.
Arguments error {T} _.

(** [{ ...response, contactPoints }]. *)
Record WithContactPoints (T E : Type) := {
  response : QueryResult T;
  contactPoints : list E;
}.
Arguments response {T E} _.
Arguments contactPoints {T E} _.

Record PluginBridge := { installed : bool; loading : bool }.

(** Only the member of [SupportedPlugin] this file names. *)
Inductive SupportedPlugin := OnCall.

(** *** Mutations and the backend they reach *)

Inductive Request :=
| UpdateAlertmanagerConfiguration (selectedAlertmanager : jsstring)
    (config : AlertManagerCortexConfig)
| DeleteNamespacedReceiver (name namespace : jsstring)
| CreateNamespacedReceiver (namespace : jsstring) (receiver : K8sReceiver)
| ReplaceNamespacedReceiver (name namespace : jsstring) (receiver : K8sReceiver).

(** The payload [unwrap()] hands back, uninterpreted. *)
Definition Reply := jsstring.

(** The backend as the mutations see it: the configuration document stored
    per alertmanager (no entry: the fetch yields no data) and the mutation
    requests issued so far, latest first. *)
Record World := {
  configs : gmap (list N) AlertManagerCortexConfig;
  issued : list Request;
}.

(** An asynchronous operation: it runs against the backend and resolves
    with a value or rejects. *)
Definition Async (A : Type) := World -> Result A * World.

Definition resolve {A} (a : A) : Async A := fun w => (Ok a, w).
Definition reject {A} (e : Error) : Async A := fun w => (Throw e, w).
Definition andThen {A B} (m : Async A) (k : A -> Async B) : Async B :=
  fun w =>
    match m w with
    | (Ok a, w') => k a w'
    | (Throw e, w') => (Throw e, w')
    end.

Notation "x <- m ;; k" := (andThen m (fun x => k))
  (at level 100, m at next level, right associativity).

(** The API slices this file destructures its hooks from.  A query hook is
    taken by its [skip] option and gives the result before
    [selectFromResult]. *)
Record AlertmanagerApi (Status Notifiers : Type) := {
  useGetAlertmanagerConfigurationQuery :
    jsstring -> bool -> QueryResult AlertManagerCortexConfig;
  useGetContactPointsListQuery : bool -> QueryResult (list GrafanaManagedContactPoint);
  useGetContactPointsStatusQuery : bool -> QueryResult Status;
  useGrafanaNotifiersQuery : bool -> QueryResult Notifiers;
}.
Arguments useGetAlertmanagerConfigurationQuery {_ _} _ _ _.
Arguments useGetContactPointsListQuery {_ _} _ _.
Arguments useGetContactPointsStatusQuery {_ _} _ _.
Arguments useGrafanaNotifiersQuery {_ _} _ _.

Record OnCallApi (Integrations : Type) := {
  useGrafanaOnCallIntegrationsQuery : bool -> QueryResult Integrations;
}.
Arguments useGrafanaOnCallIntegrationsQuery {_} _ _.

Record GeneratedReceiversApi := {
  useListNamespacedReceiverQuery : jsstring -> bool -> QueryResult ReceiverList;
  useReadNamespacedReceiverQuery : jsstring -> jsstring -> bool -> QueryResult K8sReceiver;
}.

(** [enhanceContactPointsWithMetadata]'s argument. *)
Record EnhanceArgs (Status Notifiers Integrations : Type) := {
  arg_status : option Status;
  arg_notifiers : option Notifiers;
  arg_onCallIntegrations : option Integrations;
  arg_contactPoints : list Receiver;
  arg_alertmanagerConfiguration : option AlertManagerCortexConfig;
}.
Arguments Build_EnhanceArgs {_ _ _} _ _ _ _ _.

Record CreateOrUpdateArgs := {
  contactPoint : Receiver;
  arg_id : option jsstring;
  originalName : option jsstring;
}.

(** ** Concrete backends the examples run on *)

Module Sample.

Definition email : GrafanaManagedReceiverConfig :=
  {| cfg_uid := Some (str "u1"); cfg_name := str "mail"; cfg_type := str "email";
     provenance := None; disableResolveMessage := false;
     settings := [(str "addresses", str "ops@example.org")] |}.

Definition webhook : GrafanaManagedReceiverConfig :=
  {| cfg_uid := Some (str "u2"); cfg_name := str "hook"; cfg_type := str "webhook";
     provenance := Some (str "api"); disableResolveMessage := false;
     settings := [] |}.

Definition receiver (n : string) (cfgs : list GrafanaManagedReceiverConfig) : Receiver :=
  {| id := None; name := str n; provisioned := None;
     grafana_managed_receiver_configs := Some cfgs; cloud_configs := [] |}.

Definition grafana : jsstring := str "grafana".

Definition config : AlertManagerCortexConfig :=
  {| template_files := [];
     alertmanager_config :=
       {| receivers := Some [receiver "a b" [email]; receiver "ops" [webhook];
                             receiver "dev" []];
          am_rest := [(str "route", str "ops")] |} |}.

Definition world : World := {| configs := {[ grafana := config ]}; issued := [] |}.
Definition offline : World := {| configs := ∅; issued := [] |}.

Definition settled {T} (d : T) : QueryResult T :=
  {| isLoading := false; data := Some d; error := None |}.
Definition pending {T} : QueryResult T :=
  {| isLoading := true; data := None; error := None |}.

(** Everything has arrived except the status, which is still loading. *)
Definition alertmanagerApi : AlertmanagerApi unit unit :=
  {| useGetAlertmanagerConfigurationQuery := fun _ _ => settled config;
     useGetContactPointsListQuery := fun _ => settled [receiver "ops" [webhook]];
     useGetContactPointsStatusQuery := fun _ => pending;
     useGrafanaNotifiersQuery := fun _ => settled tt |}.

Definition onCallApi : OnCallApi unit :=
  {| useGrafanaOnCallIntegrationsQuery := fun _ => settled tt |}.

Definition k8sItem : K8sReceiver :=
  {| metadata := Some {| meta_name := Some (str "b3Bz"); meta_uid := Some (str "b3Bz");
                         annotations := [] |};
     spec := {| title := str "ops"; integrations := [webhook] |} |}.

Definition generatedReceiversApi : GeneratedReceiversApi :=
  {| useListNamespacedReceiverQuery := fun _ _ => settled {| items := [k8sItem] |};
     useReadNamespacedReceiverQuery := fun _ _ _ => settled k8sItem |}.

Definition usePluginBridge (_ : SupportedPlugin) : PluginBridge :=
  {| installed := true; loading := false |}.

Definition enhance (args : EnhanceArgs unit unit unit) : list Receiver :=
  arg_contactPoints _ _ _ args.

Definition namespace : jsstring := str "default".
Definition notProvisioned (_ : K8sReceiver) : bool := false.
Definition structured (_ : jsstring) : bool := true.
Definition legacy (_ : jsstring) : bool := false.
Definition accept (_ : Request) : Result Reply := Ok (str "ok").
Definition noLegacyWrite (_ : jsstring) (_ : CreateOrUpdateArgs) : Async (option Reply) :=
  resolve None.

Definition update : CreateOrUpdateArgs :=
  {| contactPoint := receiver "ops" [webhook];
     arg_id := Some (str "b3Bz");
     originalName := Some (str "ops") |}.

Definition updateWithoutOriginalName : CreateOrUpdateArgs :=
  {| contactPoint := receiver "ops" [webhook];
     arg_id := Some (str "b3Bz");
     originalName := None |}.

(** A backend that refuses every mutation. *)
Definition refuse (_ : Request) : Result Reply := Throw RequestFailed.

(** A document in which one name occurs twice. *)
Definition repeated : AlertManagerCortexConfig :=
  {| template_files := [];
     alertmanager_config :=
       {| receivers := Some [receiver "ops" [email]; receiver "dev" [];
                             receiver "ops" [webhook]];
          am_rest := [] |} |}.

Definition worldWithRepeats : World :=
  {| configs := {[ grafana := repeated ]}; issued := [] |}.

(** An external alertmanager. *)
Definition mimir : jsstring := str "mimir".

(** The structured queries have not answered. *)
Definition idleReceiversApi : GeneratedReceiversApi :=
  {| useListNamespacedReceiverQuery := fun _ _ => pending;
     useReadNamespacedReceiverQuery := fun _ _ _ => pending |}.

(** The configuration query has not answered. *)
Definition waitingApi : AlertmanagerApi unit unit :=
  {| useGetAlertmanagerConfigurationQuery := fun _ _ => pending;
     useGetContactPointsListQuery := fun _ => pending;
     useGetContactPointsStatusQuery := fun _ => pending;
     useGrafanaNotifiersQuery := fun _ => pending |}.

Definition provisionOnCall (r : Receiver) : Async Receiver := resolve r.
Definition merge (config : AlertManagerCortexConfig) (_ : Receiver) (_ : option jsstring)
  : Result AlertManagerCortexConfig := Ok config.
Definition updateAction (_ _ : AlertManagerCortexConfig) (_ : jsstring) : Async unit :=
  resolve tt.
Definition invalidate (_ : list jsstring) : Async unit := resolve tt.

Definition create : CreateOrUpdateArgs :=
  {| contactPoint := receiver "new" [email]; arg_id := None; originalName := None |}.

End Sample.

(** ** The hooks *)

Section Hooks.

(** What the file imports: the payloads it only hands on, the API slices,
    and the helpers of the alerting utilities. *)
Context {Status Notifiers Integrations Enhanced : Type}.
Variable alertmanagerApi : AlertmanagerApi Status Notifiers.
Variable onCallApi : OnCallApi Integrations.
Variable generatedReceiversApi : GeneratedReceiversApi.
Variable usePluginBridge : SupportedPlugin -> PluginBridge.
Variable enhanceContactPointsWithMetadata :
  EnhanceArgs Status Notifiers Integrations -> list Enhanced.
Variable GRAFANA_RULES_SOURCE_NAME : jsstring.
Variable getK8sNamespace : jsstring.
Variable isK8sEntityProvisioned : K8sReceiver -> bool.
Variable shouldUseK8sApi : jsstring -> bool.
(** The backend's answer to a mutation. *)
Variable respond : Request -> Result Reply.
(** The create-or-update closure for the configuration-document backend,
    which is built from [createOnCallIntegrations], [updateConfigWithReceiver]
    and [updateAlertManagerConfigAction] of other modules. *)
Variable legacyCreateOrUpdate : jsstring -> CreateOrUpdateArgs -> Async (option Reply).

(** A mutation trigger followed by [unwrap()]: the request is issued; when
    the backend accepts a configuration write the document is replaced. *)
Definition mutate (req : Request) : Async Reply :=
  fun w =>
    let w' := {| configs := configs w; issued := req :: issued w |} in
    match respond req with
    | Ok reply =>
        (Ok reply,
         match req with
         | UpdateAlertmanagerConfiguration am config =>
             {| configs := <[am := config]> (configs w'); issued := issued w' |}
         | _ => w'
         end)
    | Throw e => (Throw e, w')
    end.

(** The lazy configuration query: its promise resolves with [{ data }]. *)
Definition fetchAlertmanagerConfig (alertmanager : jsstring)
  : Async (option AlertManagerCortexConfig) :=
  fun w => (Ok (configs w !! alertmanager), w).

(** The same trigger followed by [unwrap()]: no data is a rejection. *)
Definition getConfig_unwrap (alertmanager : jsstring) : Async AlertManagerCortexConfig :=
  fun w =>
    match configs w !! alertmanager with
    | Some config => (Ok config, w)
    | None => (Throw RequestFailed, w)
    end.

Definition useOnCallIntegrations (skip : option bool) : QueryResult Integrations :=
  let bridge := usePluginBridge OnCall in
  let oncallIntegrationsResponse :=
    useGrafanaOnCallIntegrationsQuery onCallApi (truthy_bool skip || negb (installed bridge)) in
  if installed bridge then oncallIntegrationsResponse
  else {| isLoading := loading bridge; data := None; error := None |}.

Definition parseK8sReceiver (item : K8sReceiver) : Result GrafanaManagedContactPoint :=
  match metadata item with
  | None => Throw TypeError
  | Some meta =>
      Ok {| id := meta_uid meta;
            name := title (spec item);
            provisioned := Some (isK8sEntityProvisioned item);
            grafana_managed_receiver_configs := Some (integrations (spec item));
            cloud_configs := [] |}
  end.

(** [Array.prototype.map] with a callback that can throw. *)
Fixpoint map_throwing {A B} (f : A -> Result B) (l : list A) : Result (list B) :=
  match l with
  | [] => Ok []
  | a :: rest =>
      rbind (f a) (fun b => rbind (map_throwing f rest) (fun bs => Ok (b :: bs)))
  end.

Definition useK8sContactPoints (namespace : jsstring) (skip : bool)
  : Result (QueryResult (list GrafanaManagedContactPoint)) :=
  let result := useListNamespacedReceiverQuery generatedReceiversApi namespace skip in
  match data result with
  | None => Ok {| isLoading := isLoading result; data := None; error := error result |}
  | Some entries =>
      rbind (map_throwing parseK8sReceiver (items entries)) (fun parsed =>
        Ok {| isLoading := isLoading result; data := Some parsed; error := error result |})
  end.

(** [item.provenance] as a condition. *)
Definition has_provenance (item : GrafanaManagedReceiverConfig) : bool :=
  truthy_string (provenance item).

(** The [selectFromResult] callback of the list endpoint, per item. *)
Definition withProvisioned (item : GrafanaManagedContactPoint) : GrafanaManagedContactPoint :=
  {| id := id item;
     name := name item;
     provisioned := existsb has_provenance <$> grafana_managed_receiver_configs item;
     grafana_managed_receiver_configs := grafana_managed_receiver_configs item;
     cloud_configs := cloud_configs item |}.

Definition useFetchGrafanaContactPoints (skip : option bool)
  : Result (QueryResult (list GrafanaManagedContactPoint)) :=
  let namespace := getK8sNamespace in
  let useK8sApi := shouldUseK8sApi GRAFANA_RULES_SOURCE_NAME in
  let result := useGetContactPointsListQuery alertmanagerApi (truthy_bool skip || useK8sApi) in
  let grafanaResponse :=
    {| isLoading := isLoading result;
       data := map withProvisioned <$> data result;
       error := error result |} in
  rbind (useK8sContactPoints namespace (truthy_bool skip || negb useK8sApi))
    (fun k8sResponse => Ok (if useK8sApi then k8sResponse else grafanaResponse)).

(** The [useMemo] callback of [useGrafanaContactPoints]. *)
Definition combineGrafanaContactPoints
    (onCallResponse : QueryResult Integrations)
    (alertNotifiers : QueryResult Notifiers)
    (contactPointsListResponse : QueryResult (list GrafanaManagedContactPoint))
    (contactPointsStatusResponse : QueryResult Status)
    (alertmanagerConfigResponse : QueryResult AlertManagerCortexConfig)
  : WithContactPoints (list GrafanaManagedContactPoint) Enhanced :=
  let loading :=
    isLoading onCallResponse || isLoading alertNotifiers
    || isLoading contactPointsListResponse in
  match loading, data contactPointsListResponse with
  | false, Some entries =>
      let enhanced := enhanceContactPointsWithMetadata
        (Build_EnhanceArgs (data contactPointsStatusResponse) (data alertNotifiers)
           (data onCallResponse) entries (data alertmanagerConfigResponse)) in
      {| response := contactPointsListResponse; contactPoints := enhanced |}
  | _, _ =>
      {| response := {| isLoading := true;
                        data := data contactPointsListResponse;
                        error := error contactPointsListResponse |};
         contactPoints := [] |}
  end.

Definition useGrafanaContactPoints (fetchStatuses fetchPolicies skip : option bool)
  : Result (WithContactPoints (list GrafanaManagedContactPoint) Enhanced) :=
  let onCallResponse := useOnCallIntegrations skip in
  let alertNotifiers := useGrafanaNotifiersQuery alertmanagerApi (truthy_bool skip) in
  rbind (useFetchGrafanaContactPoints skip) (fun contactPointsListResponse =>
    let contactPointsStatusResponse :=
      useGetContactPointsStatusQuery alertmanagerApi
        (truthy_bool skip || negb (truthy_bool fetchStatuses)) in
    let alertmanagerConfigResponse :=
      useGetAlertmanagerConfigurationQuery alertmanagerApi GRAFANA_RULES_SOURCE_NAME
        (truthy_bool skip || negb (truthy_bool fetchPolicies)) in
    Ok (combineGrafanaContactPoints onCallResponse alertNotifiers
          contactPointsListResponse contactPointsStatusResponse
          alertmanagerConfigResponse)).

(** [Array.prototype.find] with a callback that can throw. *)
Fixpoint find_throwing {A} (p : A -> Result bool) (l : list A) : Result (option A) :=
  match l with
  | [] => Ok None
  | a :: rest =>
      rbind (p a) (fun hit => if hit then Ok (Some a) else find_throwing p rest)
  end.

(** [decodeURIComponent(receiver.name) === decodeURIComponent(name)]. *)
Definition sameDecodedName (query : jsstring) (receiver : Receiver) : Result bool :=
  rbind (decodeURIComponent (name receiver)) (fun mine =>
    rbind (decodeURIComponent query) (fun theirs => Ok (strict_eq mine theirs))).

(** The [selectFromResult] callback of [useGetAlertmanagerContactPoint]. *)
Definition selectContactPoint (query : jsstring) (result : QueryResult AlertManagerCortexConfig)
  : Result (QueryResult Receiver) :=
  let found :=
    match data result with
    | None => Ok None
    | Some config =>
        match receivers (alertmanager_config config) with
        | None => Ok None
        | Some entries => find_throwing (sameDecodedName query) entries
        end
    end in
  rbind found (fun matchedContactPoint =>
    Ok {| isLoading := isLoading result; data := matchedContactPoint; error := error result |}).

Definition useGetAlertmanagerContactPoint (alertmanager query : jsstring) (skip : bool)
  : Result (QueryResult Receiver) :=
  selectContactPoint query
    (useGetAlertmanagerConfigurationQuery alertmanagerApi alertmanager skip).

Definition useGetGrafanaContactPoint (query : jsstring) (skip : bool)
  : Result (QueryResult Receiver) :=
  let namespace := getK8sNamespace in
  let useK8sApi := shouldUseK8sApi GRAFANA_RULES_SOURCE_NAME in
  let result :=
    useReadNamespacedReceiverQuery generatedReceiversApi namespace query
      (skip || negb useK8sApi) in
  let parsed :=
    match data result with
    | Some item => rbind (parseK8sReceiver item) (fun cp => Ok (Some cp))
    | None => Ok None
    end in
  rbind parsed (fun selected =>
    let k8sResponse :=
      {| isLoading := isLoading result; data := selected; error := error result |} in
    rbind (useGetAlertmanagerContactPoint GRAFANA_RULES_SOURCE_NAME query (skip || useK8sApi))
      (fun grafanaResponse => Ok (if useK8sApi then k8sResponse else grafanaResponse))).

Definition useGetContactPoint (alertmanager query : jsstring)
  : Result (QueryResult Receiver) :=
  let isGrafana := strict_eq alertmanager GRAFANA_RULES_SOURCE_NAME in
  rbind (useGetGrafanaContactPoint query (negb isGrafana)) (fun grafanaResponse =>
    rbind (useGetAlertmanagerContactPoint alertmanager query isGrafana)
      (fun alertmanagerResponse =>
         Ok (if isGrafana then grafanaResponse else alertmanagerResponse))).

(** lodash [remove(array, predicate)]: what stays in the array. *)
Definition remove {A} (predicate : A -> bool) (array : list A) : list A :=
  List.filter (fun a => negb (predicate a)) array.

(** [produce(data, draft => { remove(receivers ?? [], ...); return draft })]. *)
Definition withoutReceiver (query : jsstring) (config : AlertManagerCortexConfig)
  : AlertManagerCortexConfig :=
  {| template_files := template_files config;
     alertmanager_config :=
       {| receivers :=
            remove (fun receiver => strict_eq (name receiver) query)
              <$> receivers (alertmanager_config config);
          am_rest := am_rest (alertmanager_config config) |} |}.

Definition useDeleteContactPoint (alertmanager : jsstring) (query : jsstring)
  : Async (option Reply) :=
  let useK8sApi := shouldUseK8sApi alertmanager in
  if useK8sApi then
    let namespace := getK8sNamespace in
    reply <- mutate (DeleteNamespacedReceiver query namespace) ;;
    resolve (Some reply)
  else
    fetched <- fetchAlertmanagerConfig alertmanager ;;
    match fetched with
    | None => resolve None
    | Some config =>
        let newConfig := withoutReceiver query config in
        reply <- mutate (UpdateAlertmanagerConfiguration alertmanager newConfig) ;;
        resolve (Some reply)
    end.

Definition grafanaContactPointToK8sReceiver
    (contactPoint : GrafanaManagedContactPoint) (id : option jsstring) : K8sReceiver :=
  {| metadata :=
       if truthy_string id
       then Some {| meta_name := id; meta_uid := None; annotations := [] |}
       else None;
     spec :=
       {| title := name contactPoint;
          integrations := default [] (grafana_managed_receiver_configs contactPoint) |} |}.

Definition useCreateOrUpdateContactPoint (alertmanager : jsstring)
    (args : CreateOrUpdateArgs) : Async (option Reply) :=
  let useK8sApi := shouldUseK8sApi alertmanager in
  if useK8sApi then
    let namespace := getK8sNamespace in
    let contactPointToUse :=
      grafanaContactPointToK8sReceiver (contactPoint args) (arg_id args) in
    match arg_id args with
    | None | Some [] =>
        reply <- mutate (CreateNamespacedReceiver namespace contactPointToUse) ;;
        resolve (Some reply)
    | Some id =>
        if truthy_string (originalName args) then
          reply <- mutate (ReplaceNamespacedReceiver id namespace contactPointToUse) ;;
          resolve (Some reply)
        else resolve None
    end
  else legacyCreateOrUpdate alertmanager args.

Definition duplicateMessage (value : jsstring) : jsstring :=
  str "Contact point already exists with name " ++ [34] ++ value ++ [34].

Definition useValidateContactPoint (alertmanager : jsstring)
    (value : jsstring) (skipValidation : option bool) : Async (option jsstring) :=
  let useK8sApi := shouldUseK8sApi alertmanager in
  if useK8sApi then resolve None
  else if truthy_bool skipValidation then resolve None
  else
    config <- getConfig_unwrap alertmanager ;;
    let duplicated :=
      match receivers (alertmanager_config config) with
      | Some entries =>
          if List.find (fun contactPoint => strict_eq (name contactPoint) value) entries
            is Some _ then true else false
      | None => false
      end in
    resolve (if duplicated then Some (duplicateMessage value) else None).


(** *** The rest of the file: the list for any alertmanager, and the
    create-or-update closure of the configuration-document backend *)

Variable cloudNotifierTypes : Notifiers.
(** [createOnCallIntegrations] of [useOnCallIntegration]. *)
Variable createOnCallIntegrations : Receiver -> Async Receiver.
(** [updateConfigWithReceiver] of the receiver-form utilities. *)
Variable updateConfigWithReceiver :
  AlertManagerCortexConfig -> Receiver -> option jsstring -> Result AlertManagerCortexConfig.
(** [dispatch(updateAlertManagerConfigAction({ newConfig, oldConfig, alertManagerSourceName }))]. *)
Variable updateAlertManagerConfigAction :
  AlertManagerCortexConfig -> AlertManagerCortexConfig -> jsstring -> Async unit.
(** [dispatch(alertingApi.util.invalidateTags(tags))] and the same on the
    generated receivers API. *)
Variable alertingApi_invalidateTags : list jsstring -> Async unit.
Variable generatedReceiversApi_invalidateTags : list jsstring -> Async unit.

Definition useContactPointsWithStatus (alertmanager : jsstring)
    (fetchStatuses fetchPolicies : option bool)
  : Result (WithContactPoints (list GrafanaManagedContactPoint) Enhanced
            + WithContactPoints AlertManagerCortexConfig Enhanced) :=
  let isGrafanaAlertmanager := strict_eq alertmanager GRAFANA_RULES_SOURCE_NAME in
  rbind (useGrafanaContactPoints fetchStatuses fetchPolicies
           (Some (negb isGrafanaAlertmanager)))
    (fun grafanaResponse =>
       let result :=
         useGetAlertmanagerConfigurationQuery alertmanagerApi alertmanager
           isGrafanaAlertmanager in
       let alertmanagerConfigResponse :=
         {| response := result;
            contactPoints :=
              match data result with
              | Some config =>
                  enhanceContactPointsWithMetadata
                    (Build_EnhanceArgs None (Some cloudNotifierTypes) None
                       (default [] (receivers (alertmanager_config config)))
                       (Some config))
              | None => []
              end |} in
       Ok (if isGrafanaAlertmanager
           then inl grafanaResponse
           else inr alertmanagerConfigResponse)).

(** A value or an exception inside an asynchronous function. *)
Definition settle {A} (r : Result A) : Async A := fun w => (r, w).

(** The closure [useCreateOrUpdateContactPoint] returns when the backend is
    the configuration document. *)
Definition createOrUpdateInConfiguration (alertmanager : jsstring)
    (args : CreateOrUpdateArgs) : Async (option Reply) :=
  let isGrafanaAlertmanager := strict_eq alertmanager GRAFANA_RULES_SOURCE_NAME in
  receiverWithPotentialOnCall <-
    (if isGrafanaAlertmanager
     then createOnCallIntegrations (contactPoint args)
     else resolve (contactPoint args)) ;;
  config <- getConfig_unwrap alertmanager ;;
  newConfig <-
    settle (updateConfigWithReceiver config receiverWithPotentialOnCall (originalName args)) ;;
  _ <- updateAlertManagerConfigAction newConfig config alertmanager ;;
  _ <- alertingApi_invalidateTags
         [str "AlertmanagerConfiguration"; str "ContactPoint"; str "ContactPointsStatus"] ;;
  _ <- generatedReceiversApi_invalidateTags [str "Receiver"] ;;
  resolve None.

(** ** Properties *)

(** *** How an operation leaves the backend *)

Lemma mutate_issued req w :
  issued (mutate req w).2 = req :: issued w.
Proof. unfold mutate. destruct (respond req), req; reflexivity. Qed.

Lemma mutate_accepted req reply w :
  respond req = Ok reply -> (mutate req w).1 = Ok reply.
Proof. unfold mutate. intros ->. reflexivity. Qed.

Lemma unwrapped_issued req w :
  issued ((reply <- mutate req ;; resolve (Some reply)) w).2 = req :: issued w.
Proof.
  pose proof (mutate_issued req w) as H. unfold andThen, resolve.
  destruct (mutate req w) as [[reply|e] w']; exact H.
Qed.

Lemma cons_not_self {A} (x : A) (l : list A) : x :: l <> l.
Proof. intros H. apply (f_equal length) in H. simpl in H. lia. Qed.

(** *** lodash [remove] on a list with distinct names *)

Lemma remove_absent (query : jsstring) (l : list Receiver) :
  query ∉ name <$> l ->
  remove (fun receiver => strict_eq (name receiver) query) l = l.
Proof.
  unfold remove, strict_eq. induction l as [|r l IH]; intros Hnot; [reflexivity|].
  rewrite fmap_cons, not_elem_of_cons in Hnot. destruct Hnot as [Hne Hnot].
  simpl. rewrite bool_decide_eq_false_2 by congruence.
  simpl. f_equal. exact (IH Hnot).
Qed.

Lemma remove_unique (query : jsstring) (l : list Receiver) :
  NoDup (name <$> l) ->
  query ∈ name <$> l ->
  exists before r after,
    l = before ++ r :: after /\ name r = query /\
    remove (fun receiver => strict_eq (name receiver) query) l = before ++ after.
Proof.
  induction l as [|x l IH]; intros Hnd Hin.
  - rewrite fmap_nil in Hin. apply elem_of_nil in Hin. destruct Hin.
  - rewrite fmap_cons in Hnd, Hin. apply list.NoDup_cons in Hnd as [Hx Hnd].
    destruct (decide (name x = query)) as [Heq|Hne].
    + exists [], x, l. split; [reflexivity|]. split; [exact Heq|].
      unfold remove, strict_eq. simpl. rewrite bool_decide_eq_true_2 by exact Heq.
      simpl. apply remove_absent. rewrite <- Heq. exact Hx.
    + apply elem_of_cons in Hin as [Hq|Hin]; [congruence|].
      destruct (IH Hnd Hin) as (before & r & after & -> & Hr & Hrem).
      exists (x :: before), r, after. split; [reflexivity|]. split; [exact Hr|].
      unfold remove, strict_eq in *. simpl.
      rewrite bool_decide_eq_false_2 by exact Hne. simpl. f_equal. exact Hrem.
Qed.

(** C1, as the code has it. When the list hook returns, the enriched result reports
    [isLoading] exactly when the OnCall integrations, the notifier metadata
    or the contact-point list is still loading, or the list has no data
    yet; the loading state of the status fetch does not enter. *)
Theorem useGrafanaContactPoints_isLoading
    (fetchStatuses fetchPolicies skip : option bool)
    (contactPointsListResponse : QueryResult (list GrafanaManagedContactPoint)) :
  useFetchGrafanaContactPoints skip = Ok contactPointsListResponse ->
  exists result,
    useGrafanaContactPoints fetchStatuses fetchPolicies skip = Ok result /\
    isLoading (response result) =
      isLoading (useOnCallIntegrations skip)
      || isLoading (useGrafanaNotifiersQuery alertmanagerApi (truthy_bool skip))
      || isLoading contactPointsListResponse
      || negb (bool_decide (is_Some (data contactPointsListResponse))).
Proof.
  intros Hlist. unfold useGrafanaContactPoints. rewrite Hlist. simpl.
  eexists. split; [reflexivity|].
  unfold combineGrafanaContactPoints.
  destruct (isLoading (useOnCallIntegrations skip)),
    (isLoading (useGrafanaNotifiersQuery alertmanagerApi (truthy_bool skip))),
    (isLoading contactPointsListResponse) eqn:Hl,
    (data contactPointsListResponse); simpl; try reflexivity.
  exact Hl.
Qed.

(** C2. On the configuration-document backend, with pairwise distinct
    receiver names and a receiver of the given name, the delete operation
    issues one configuration write whose document has that one receiver
    removed and all others as they were, in their order; the rest of the
    document is untouched. *)
Theorem useDeleteContactPoint_removes_one
    (alertmanager query : jsstring) (w : World)
    (config : AlertManagerCortexConfig) (entries : list Receiver) :
  shouldUseK8sApi alertmanager = false ->
  configs w !! alertmanager = Some config ->
  receivers (alertmanager_config config) = Some entries ->
  NoDup (name <$> entries) ->
  query ∈ name <$> entries ->
  exists before r after newConfig,
    entries = before ++ r :: after /\ name r = query /\
    receivers (alertmanager_config newConfig) = Some (before ++ after) /\
    am_rest (alertmanager_config newConfig) = am_rest (alertmanager_config config) /\
    template_files newConfig = template_files config /\
    issued (useDeleteContactPoint alertmanager query w).2
      = UpdateAlertmanagerConfiguration alertmanager newConfig :: issued w /\
    forall reply,
      respond (UpdateAlertmanagerConfiguration alertmanager newConfig) = Ok reply ->
      useDeleteContactPoint alertmanager query w
        = (Ok (Some reply),
           {| configs := <[alertmanager := newConfig]> (configs w);
              issued := UpdateAlertmanagerConfiguration alertmanager newConfig
                          :: issued w |}).
Proof.
  intros Hlegacy Hcfg Hrs Hnd Hin.
  destruct (remove_unique query entries Hnd Hin) as (before & r & after & Hsplit & Hr & Hrem).
  exists before, r, after, (withoutReceiver query config).
  split; [exact Hsplit|]. split; [exact Hr|].
  split; [unfold withoutReceiver; simpl; rewrite Hrs; simpl; by rewrite Hrem|].
  split; [reflexivity|]. split; [reflexivity|].
  unfold useDeleteContactPoint, andThen, fetchAlertmanagerConfig.
  rewrite Hlegacy, Hcfg. split.
  - unfold mutate.
    destruct (respond (UpdateAlertmanagerConfiguration alertmanager
                         (withoutReceiver query config))); reflexivity.
  - intros reply Hreply. unfold mutate. rewrite Hreply. reflexivity.
Qed.

(** C3, as the code has it. For a non-empty identifier, the structured resource
    made from a contact point carries the identifier as its metadata name,
    its name as title and its integration configs (none: the empty list)
    as integrations; parsing that resource gives back the name and the
    integrations, while the id is read from the metadata uid, which the
    forward mapping does not set, and so is undefined. *)
Theorem parseK8sReceiver_of_grafanaContactPointToK8sReceiver
    (cp : GrafanaManagedContactPoint) (ident : option jsstring) :
  truthy_string ident = true ->
  exists parsed,
    parseK8sReceiver (grafanaContactPointToK8sReceiver cp ident) = Ok parsed /\
    meta_name <$> metadata (grafanaContactPointToK8sReceiver cp ident) = Some ident /\
    name parsed = name cp /\
    grafana_managed_receiver_configs parsed
      = Some (default [] (grafana_managed_receiver_configs cp)) /\
    id parsed = None.
Proof.
  intros Hid. unfold parseK8sReceiver, grafanaContactPointToK8sReceiver.
  rewrite Hid. simpl. eexists. split; [reflexivity|]. simpl. auto.
Qed.

(** Without an identifier the resource has no metadata, and reading its
    uid throws. *)
Lemma parseK8sReceiver_without_identifier
    (cp : GrafanaManagedContactPoint) (ident : option jsstring) :
  truthy_string ident = false ->
  parseK8sReceiver (grafanaContactPointToK8sReceiver cp ident) = Throw TypeError.
Proof.
  intros Hid. unfold parseK8sReceiver, grafanaContactPointToK8sReceiver.
  rewrite Hid. reflexivity.
Qed.

(** *** Lookup by decoded name *)

Lemma sameDecodedName_true (query : jsstring) (receiver : Receiver) :
  sameDecodedName query receiver = Ok true <->
  exists d, decodeURIComponent (name receiver) = Ok d /\ decodeURIComponent query = Ok d.
Proof.
  unfold sameDecodedName, strict_eq.
  destruct (decodeURIComponent (name receiver)) as [mine|e],
    (decodeURIComponent query) as [theirs|e']; simpl.
  - split.
    + intros H. injection H as H. apply bool_decide_eq_true_1 in H. subst. eauto.
    + intros (d & Hm & Ht). injection Hm as ->. injection Ht as ->.
      by rewrite bool_decide_eq_true_2.
  - split; [discriminate|]. intros (d & _ & Ht). discriminate.
  - split; [discriminate|]. intros (d & Hm & _). discriminate.
  - split; [discriminate|]. intros (d & Hm & _). discriminate.
Qed.

Lemma find_throwing_first {A} (p : A -> Result bool) (l : list A) (r : A) :
  find_throwing p l = Ok (Some r) <->
  exists before after,
    l = before ++ r :: after /\ p r = Ok true /\ Forall (fun x => p x = Ok false) before.
Proof.
  induction l as [|a l IH]; simpl.
  - split; [discriminate|]. intros (before & after & H & _). by destruct before.
  - destruct (p a) as [[|]|e] eqn:Hp; simpl.
    + split.
      * intros H. injection H as ->. exists [], l. auto.
      * intros (before & after & Hl & Hr & Hb). destruct before as [|b before].
        -- simpl in Hl. injection Hl as -> _. reflexivity.
        -- simpl in Hl. injection Hl as -> _. apply list.Forall_cons in Hb as [Hb _]. congruence.
    + rewrite IH. split.
      * intros (before & after & -> & Hr & Hb). exists (a :: before), after.
        split; [reflexivity|]. split; [exact Hr|]. by apply list.Forall_cons.
      * intros (before & after & Hl & Hr & Hb). destruct before as [|b before].
        -- simpl in Hl. injection Hl as -> _. congruence.
        -- simpl in Hl. injection Hl as -> ->. apply list.Forall_cons in Hb as [_ Hb].
           eauto.
    + split; [discriminate|].
      intros (before & after & Hl & Hr & Hb). destruct before as [|b before].
      * simpl in Hl. injection Hl as -> _. congruence.
      * simpl in Hl. injection Hl as -> _. apply list.Forall_cons in Hb as [Hb _]. congruence.
Qed.

(** C4. In the lookup through the alertmanager configuration a receiver
    matches exactly when its percent-decoded name equals the
    percent-decoded query name; the lookup selects the first receiver that
    matches; and ["a b"] and ["a%20b"] match each other, either way. *)
Theorem useGetAlertmanagerContactPoint_decoded_match :
  (forall query receiver,
      sameDecodedName query receiver = Ok true <->
      exists d, decodeURIComponent (name receiver) = Ok d /\
                decodeURIComponent query = Ok d) /\
  (forall alertmanager query skip config entries r,
      data (useGetAlertmanagerConfigurationQuery alertmanagerApi alertmanager skip)
        = Some config ->
      receivers (alertmanager_config config) = Some entries ->
      (exists selected,
          useGetAlertmanagerContactPoint alertmanager query skip = Ok selected /\
          data selected = Some r) <->
      (exists before after,
          entries = before ++ r :: after /\
          sameDecodedName query r = Ok true /\
          Forall (fun other => sameDecodedName query other = Ok false) before)) /\
  (forall r, name r = str "a b" -> sameDecodedName (str "a%20b") r = Ok true) /\
  (forall r, name r = str "a%20b" -> sameDecodedName (str "a b") r = Ok true).
Proof.
  split; [exact sameDecodedName_true|]. split.
  - intros alertmanager query skip config entries r Hdata Hrs.
    rewrite <- find_throwing_first.
    unfold useGetAlertmanagerContactPoint, selectContactPoint.
    rewrite Hdata, Hrs.
    destruct (find_throwing (sameDecodedName query) entries) as [found|e]; simpl.
    + split.
      * intros (selected & Hsel & Hd). injection Hsel as <-. simpl in Hd. by rewrite Hd.
      * intros H. injection H as ->. eexists. split; reflexivity.
    + split; [|discriminate]. intros (selected & Hsel & _). discriminate.
  - split; intros r Hr; unfold sameDecodedName; rewrite Hr; reflexivity.
Qed.

(** *** Validation *)

Lemma find_name_Some (value : jsstring) (l : list Receiver) :
  is_Some (List.find (fun contactPoint => strict_eq (name contactPoint) value) l) <->
  exists r, r ∈ l /\ name r = value.
Proof.
  unfold strict_eq. split.
  - intros [r Hr]. apply List.find_some in Hr as [Hin Heq].
    exists r. split; [by apply list_elem_of_In|]. by apply bool_decide_eq_true_1 in Heq.
  - intros (r & Hin & Heq).
    destruct (List.find _ l) as [x|] eqn:Hfind; [eauto|].
    apply list_elem_of_In in Hin.
    pose proof (List.find_none _ _ Hfind r Hin) as Hno. simpl in Hno.
    rewrite bool_decide_eq_true_2 in Hno by exact Heq. discriminate.
Qed.

(** C5, as the code has it. The validator resolves with the duplicate-name message
    exactly when the backend is the configuration-document one, validation
    is not skipped, the configuration fetch yields a document, and one of
    its receivers has exactly the candidate name; on the structured backend
    it resolves with no message without looking at anything; it rejects
    exactly when the configuration fetch it needs yields no document, and
    otherwise resolves with an optional message; it never writes. *)
Theorem useValidateContactPoint_outcome
    (alertmanager value : jsstring) (skipValidation : option bool) (w : World) :
  (forall message,
      (useValidateContactPoint alertmanager value skipValidation w).1 = Ok (Some message) <->
      message = duplicateMessage value /\
      shouldUseK8sApi alertmanager = false /\
      truthy_bool skipValidation = false /\
      exists config entries r,
        configs w !! alertmanager = Some config /\
        receivers (alertmanager_config config) = Some entries /\
        r ∈ entries /\ name r = value) /\
  (shouldUseK8sApi alertmanager = true ->
      useValidateContactPoint alertmanager value skipValidation w = (Ok None, w)) /\
  (forall e,
      (useValidateContactPoint alertmanager value skipValidation w).1 = Throw e <->
      e = RequestFailed /\
      shouldUseK8sApi alertmanager = false /\
      truthy_bool skipValidation = false /\
      configs w !! alertmanager = None) /\
  (useValidateContactPoint alertmanager value skipValidation w).2 = w.
Proof.
  unfold useValidateContactPoint, andThen, getConfig_unwrap, resolve.
  destruct (shouldUseK8sApi alertmanager) eqn:Hk8s; simpl.
  { split; [|split; [|split]]; try reflexivity.
    - intros message. split; [discriminate|]. intros (_ & H & _). discriminate.
    - intros e. split; [discriminate|]. intros (_ & H & _). discriminate. }
  destruct (truthy_bool skipValidation) eqn:Hskip; simpl.
  { split; [|split; [|split]]; try reflexivity; try discriminate.
    - intros message. split; [discriminate|]. intros (_ & _ & H & _). discriminate.
    - intros e. split; [discriminate|]. intros (_ & _ & H & _). discriminate. }
  destruct (configs w !! alertmanager) as [config|] eqn:Hcfg; simpl.
  2:{ split; [|split; [|split]]; try reflexivity; try discriminate.
      - intros message. split; [discriminate|].
        intros (_ & _ & _ & config & entries & r & Hc & _). discriminate.
      - intros e. split; [intros H; injection H as <-; auto|]. by intros (-> & _). }
  split; [|split; [|split]]; try reflexivity; try discriminate.
  2:{ intros e. split; [discriminate|]. intros (_ & _ & _ & H). discriminate. }
  intros message.
  destruct (receivers (alertmanager_config config)) as [entries|] eqn:Hrs.
  2:{ split; [discriminate|].
      intros (_ & _ & _ & config' & entries & r & Hc & Hl & _). congruence. }
  pose proof (find_name_Some value entries) as Hfind.
  destruct (List.find _ entries) as [x|]; simpl.
  - split.
    + intros H. injection H as <-. split; [reflexivity|]. do 2 (split; [reflexivity|]).
      destruct (proj1 Hfind (mk_is_Some _ _ eq_refl)) as (r & Hin & Hr).
      exists config, entries, r. auto.
    + intros (-> & _). reflexivity.
  - split; [discriminate|].
    intros (_ & _ & _ & config' & entries' & r & Hc & Hl & Hin & Hr).
    assert (config' = config) as -> by congruence.
    assert (entries' = entries) as -> by congruence.
    destruct (proj2 Hfind (ex_intro _ r (conj Hin Hr))) as [? ?]. discriminate.
Qed.

(** *** The two normalisers of the list fetch *)



Lemma exposed_fields_parsed (item : K8sReceiver) (cp : GrafanaManagedContactPoint) :
  parseK8sReceiver item = Ok cp ->
  exists meta,
    metadata item = Some meta /\
    exposed_fields cp =
      (if meta_uid meta is Some _ then [f_id] else [])
      ++ [f_name; f_provisioned; f_grafana_managed_receiver_configs].
Proof.
  unfold parseK8sReceiver. destruct (metadata item) as [meta|]; [|discriminate].
  intros H. injection H as <-. exists meta. split; [reflexivity|].
  unfold exposed_fields. simpl. by destruct (meta_uid meta).
Qed.

Lemma exposed_fields_withProvisioned (item : GrafanaManagedContactPoint) :
  exposed_fields (withProvisioned item) =
    (if id item is Some _ then [f_id] else [])
    ++ [f_name]
    ++ (if grafana_managed_receiver_configs item is Some _
        then [f_provisioned; f_grafana_managed_receiver_configs] else []).
Proof.
  unfold exposed_fields, withProvisioned. simpl.
  by destruct (id item), (grafana_managed_receiver_configs item).
Qed.

Lemma map_throwing_pairs {A B} (f : A -> Result B) (l : list A) (bs : list B) :
  map_throwing f l = Ok bs -> Forall2 (fun a b => f a = Ok b) l bs.
Proof.
  revert bs. induction l as [|a l IH]; simpl; intros bs Hmap.
  - injection Hmap as <-. constructor.
  - destruct (f a) as [b|e] eqn:Hfa; simpl in Hmap; [|discriminate].
    destruct (map_throwing f l) as [rest|e]; simpl in Hmap; [|discriminate].
    injection Hmap as <-. constructor; [exact Hfa|by apply IH].
Qed.

(** C6, as the code has it. The contact points fetched through the structured
    backend are, one for one and in order, the fetched resources: each
    always exposes a name (the title), a provisioned flag and the
    integration configs, and an id exactly when its resource carries a
    metadata uid.  Those fetched through the list endpoint of the other
    backend are, one for one and in order, the fetched items with a
    provisioned flag added: each has the id, the name and the integration
    configs of its item, so it exposes an id and integration configs exactly
    when the item has them, and a provisioned flag exactly when the item has
    integration configs. *)
Theorem useFetchGrafanaContactPoints_exposed_fields
    (skip : option bool) (fetched : QueryResult (list GrafanaManagedContactPoint))
    (entries : list GrafanaManagedContactPoint) :
  useFetchGrafanaContactPoints skip = Ok fetched ->
  data fetched = Some entries ->
  if shouldUseK8sApi GRAFANA_RULES_SOURCE_NAME
  then
    exists resources,
      data (useListNamespacedReceiverQuery generatedReceiversApi getK8sNamespace
              (truthy_bool skip || negb (shouldUseK8sApi GRAFANA_RULES_SOURCE_NAME)))
        = Some resources /\
      Forall2
        (fun item cp =>
           exists meta,
             metadata item = Some meta /\
             id cp = meta_uid meta /\
             name cp = title (spec item) /\
             provisioned cp = Some (isK8sEntityProvisioned item) /\
             grafana_managed_receiver_configs cp = Some (integrations (spec item)) /\
             exposed_fields cp =
               (if meta_uid meta is Some _ then [f_id] else [])
               ++ [f_name; f_provisioned; f_grafana_managed_receiver_configs])
        (items resources) entries
  else
    exists fetchedItems,
      data (useGetContactPointsListQuery alertmanagerApi
              (truthy_bool skip || shouldUseK8sApi GRAFANA_RULES_SOURCE_NAME))
        = Some fetchedItems /\
      Forall2
        (fun item cp =>
           id cp = id item /\
           name cp = name item /\
           grafana_managed_receiver_configs cp = grafana_managed_receiver_configs item /\
           (is_Some (provisioned cp) <-> is_Some (grafana_managed_receiver_configs item)) /\
           exposed_fields cp =
             (if id item is Some _ then [f_id] else [])
             ++ [f_name]
             ++ (if grafana_managed_receiver_configs item is Some _
                 then [f_provisioned; f_grafana_managed_receiver_configs] else []))
        fetchedItems entries.
Proof.
  unfold useFetchGrafanaContactPoints, useK8sContactPoints.
  destruct (shouldUseK8sApi GRAFANA_RULES_SOURCE_NAME); intros Hfetch Hdata.
  - destruct (data (useListNamespacedReceiverQuery _ _ _)) as [resources|];
      simpl in Hfetch.
    + destruct (map_throwing parseK8sReceiver (items resources)) as [parsed|e] eqn:Hmap;
        simpl in Hfetch; [|discriminate].
      injection Hfetch as <-. simpl in Hdata. injection Hdata as <-.
      exists resources. split; [reflexivity|].
      apply map_throwing_pairs in Hmap.
      revert Hmap. apply Forall2_impl. intros item cp Hitem.
      destruct (exposed_fields_parsed item cp Hitem) as (meta & Hmeta & Hfields).
      exists meta. unfold parseK8sReceiver in Hitem. rewrite Hmeta in Hitem.
      injection Hitem as <-. simpl. auto 10.
    + injection Hfetch as <-. discriminate.
  - assert (Hlist : data fetched
              = fmap (M := option) (fmap withProvisioned)
                  (data (useGetContactPointsListQuery alertmanagerApi
                           (truthy_bool skip || false)))).
    { destruct (data (useListNamespacedReceiverQuery _ _ _)) as [resources|];
        simpl in Hfetch.
      - destruct (map_throwing parseK8sReceiver (items resources));
          simpl in Hfetch; [|discriminate]. by injection Hfetch as <-.
      - by injection Hfetch as <-. }
    rewrite Hdata in Hlist.
    destruct (data (useGetContactPointsListQuery alertmanagerApi _)) as [fetchedItems|];
      [|discriminate].
    simpl in Hlist. injection Hlist as ->.
    exists fetchedItems. split; [reflexivity|].
    apply Forall2_fmap_r, Forall_Forall2_diag, Forall_forall. intros item _.
    split; [reflexivity|]. split; [reflexivity|]. split; [reflexivity|].
    split; [|apply exposed_fields_withProvisioned].
    unfold withProvisioned. simpl.
    destruct (grafana_managed_receiver_configs item); simpl;
      split; intros [? ?]; eauto; discriminate.
Qed.

(** *** Create or update on the structured backend *)

(** C7. On the structured backend the create-or-update operation issues a
    create request exactly when no identifier is supplied (none, or the
    empty string), and a replace request, addressed by the identifier,
    exactly when an identifier and an original name are both supplied
    (present and non-empty); either request carries the mapped contact
    point, and nothing else is issued. *)
Theorem useCreateOrUpdateContactPoint_k8s_endpoint
    (alertmanager : jsstring) (args : CreateOrUpdateArgs) (w : World) :
  shouldUseK8sApi alertmanager = true ->
  ((exists namespace receiver,
       issued (useCreateOrUpdateContactPoint alertmanager args w).2
         = CreateNamespacedReceiver namespace receiver :: issued w)
     <-> truthy_string (arg_id args) = false) /\
  ((exists ident namespace receiver,
       issued (useCreateOrUpdateContactPoint alertmanager args w).2
         = ReplaceNamespacedReceiver ident namespace receiver :: issued w)
     <-> truthy_string (arg_id args) = true /\ truthy_string (originalName args) = true) /\
  (forall request,
      issued (useCreateOrUpdateContactPoint alertmanager args w).2 = request :: issued w ->
      let receiver := grafanaContactPointToK8sReceiver (contactPoint args) (arg_id args) in
      request = CreateNamespacedReceiver getK8sNamespace receiver \/
      exists ident,
        arg_id args = Some ident /\
        request = ReplaceNamespacedReceiver ident getK8sNamespace receiver) /\
  (issued (useCreateOrUpdateContactPoint alertmanager args w).2 = issued w \/
   exists request,
     issued (useCreateOrUpdateContactPoint alertmanager args w).2 = request :: issued w).
Proof.
  intros Hk8s. unfold useCreateOrUpdateContactPoint. rewrite Hk8s.
  set (receiver := grafanaContactPointToK8sReceiver (contactPoint args) (arg_id args)).
  pose proof (unwrapped_issued (CreateNamespacedReceiver getK8sNamespace receiver) w)
    as Hcreate.
  pose proof (fun ident =>
    unwrapped_issued (ReplaceNamespacedReceiver ident getK8sNamespace receiver) w)
    as Hreplace.
  destruct (arg_id args) as [[|c ident]|] eqn:Hid; simpl.
  - rewrite Hcreate. split; [|split; [|split]].
    + split; [reflexivity|]. eauto.
    + split; [|intros [H _]; discriminate].
      intros (i & n & r & H). discriminate.
    + intros request H. injection H as <-. by left.
    + right. eauto.
  - destruct (truthy_string (originalName args)) eqn:Horig; simpl.
    + rewrite Hreplace. split; [|split; [|split]].
      * split; [|discriminate]. intros (n & r & H). discriminate.
      * split; [auto|]. eauto.
      * intros request H. injection H as <-. right. eauto.
      * right. eauto.
    + split; [|split; [|split]].
      * split; [|discriminate]. intros (n & r & H). symmetry in H.
        by apply cons_not_self in H.
      * split; [|intros [_ H]; discriminate]. intros (i & n & r & H). symmetry in H.
        by apply cons_not_self in H.
      * intros request H. symmetry in H. by apply cons_not_self in H.
      * by left.
  - rewrite Hcreate. split; [|split; [|split]].
    + split; [reflexivity|]. eauto.
    + split; [|intros [H _]; discriminate].
      intros (i & n & r & H). discriminate.
    + intros request H. injection H as <-. by left.
    + right. eauto.
Qed.

(** C8. On the structured backend, with an identifier but no original
    name, the operation resolves to [undefined] and issues no request: the
    backend is as it was. *)
Theorem useCreateOrUpdateContactPoint_k8s_no_original_name
    (alertmanager : jsstring) (args : CreateOrUpdateArgs) (w : World) :
  shouldUseK8sApi alertmanager = true ->
  truthy_string (arg_id args) = true ->
  truthy_string (originalName args) = false ->
  useCreateOrUpdateContactPoint alertmanager args w = (Ok None, w).
Proof.
  intros Hk8s Hid Horig. unfold useCreateOrUpdateContactPoint. rewrite Hk8s.
  destruct (arg_id args) as [[|c ident]|]; try discriminate.
  rewrite Horig. reflexivity.
Qed.

(** C9. On the configuration-document backend, when the fetch of the
    delete operation yields no data, the operation resolves without a
    configuration write and the backend is as it was. *)
Theorem useDeleteContactPoint_no_data
    (alertmanager query : jsstring) (w : World) :
  shouldUseK8sApi alertmanager = false ->
  configs w !! alertmanager = None ->
  useDeleteContactPoint alertmanager query w = (Ok None, w).
Proof.
  intros Hlegacy Hcfg.
  unfold useDeleteContactPoint, andThen, fetchAlertmanagerConfig.
  rewrite Hlegacy, Hcfg. reflexivity.
Qed.

(** *** Provisioning on the list endpoint *)



(** ** Further properties of the operations *)

(** *** Delete on the configuration-document backend *)

Lemma remove_keeps (query : jsstring) (l : list Receiver) (r : Receiver) :
  r ∈ remove (fun receiver => strict_eq (name receiver) query) l <->
  r ∈ l /\ name r <> query.
Proof.
  unfold remove, strict_eq. rewrite !list_elem_of_In, List.filter_In.
  rewrite negb_true_iff, bool_decide_eq_false. reflexivity.
Qed.

Lemma remove_sublist {A} (predicate : A -> bool) (l : list A) :
  remove predicate l `sublist_of` l.
Proof.
  unfold remove. induction l as [|a l IH]; simpl; [constructor|].
  destruct (predicate a); simpl; by constructor.
Qed.

Lemma remove_idempotent {A} (predicate : A -> bool) (l : list A) :
  remove predicate (remove predicate l) = remove predicate l.
Proof.
  unfold remove. induction l as [|a l IH]; simpl; [reflexivity|].
  destruct (predicate a) eqn:Hp; simpl; [exact IH|]. rewrite Hp. simpl. by rewrite IH.
Qed.

Lemma withoutReceiver_idempotent (query : jsstring) (config : AlertManagerCortexConfig) :
  withoutReceiver query (withoutReceiver query config) = withoutReceiver query config.
Proof.
  unfold withoutReceiver. simpl.
  destruct (receivers (alertmanager_config config)) as [entries|]; simpl; [|reflexivity].
  by rewrite remove_idempotent.
Qed.

Lemma withoutReceiver_absent (query : jsstring) (config : AlertManagerCortexConfig) :
  (receivers (alertmanager_config config) = None \/
   exists entries,
     receivers (alertmanager_config config) = Some entries /\ query ∉ name <$> entries) ->
  withoutReceiver query config = config.
Proof.
  destruct config as [files [entries rest]]. unfold withoutReceiver. simpl.
  intros [->|(entries' & -> & Hnot)]; simpl; [reflexivity|].
  by rewrite remove_absent.
Qed.

Lemma useDeleteContactPoint_legacy_run (alertmanager query : jsstring) (w : World)
    (config : AlertManagerCortexConfig) :
  shouldUseK8sApi alertmanager = false ->
  configs w !! alertmanager = Some config ->
  useDeleteContactPoint alertmanager query w =
    (reply <- mutate (UpdateAlertmanagerConfiguration alertmanager
                        (withoutReceiver query config)) ;;
     resolve (Some reply)) w.
Proof.
  intros Hlegacy Hcfg. unfold useDeleteContactPoint. rewrite Hlegacy.
  unfold andThen at 1. unfold fetchAlertmanagerConfig. rewrite Hcfg. reflexivity.
Qed.

Lemma unwrapped_accepted_update (alertmanager : jsstring)
    (config : AlertManagerCortexConfig) (reply : Reply) (w : World) :
  respond (UpdateAlertmanagerConfiguration alertmanager config) = Ok reply ->
  (r <- mutate (UpdateAlertmanagerConfiguration alertmanager config) ;; resolve (Some r)) w
  = (Ok (Some reply),
     {| configs := <[alertmanager := config]> (configs w);
        issued := UpdateAlertmanagerConfiguration alertmanager config :: issued w |}).
Proof. intros H. unfold andThen, mutate, resolve. rewrite H. reflexivity. Qed.

Lemma remove_by_name (query : jsstring) (l : list Receiver) :
  remove (fun receiver => strict_eq (name receiver) query) l
  = filter (fun receiver => name receiver <> query) l.
Proof.
  unfold remove, strict_eq. induction l as [|r l IH]; [reflexivity|].
  rewrite filter_cons. simpl. destruct (decide (name r <> query)) as [Hne|Heq].
  - rewrite bool_decide_eq_false_2 by exact Hne. simpl. by rewrite IH.
  - apply dec_stable in Heq. rewrite bool_decide_eq_true_2 by exact Heq. simpl. exact IH.
Qed.

(** X1. Without any assumption on the names: the document the delete
    operation writes back keeps exactly the receivers whose name differs
    from the given one, each as often as it occurred and in their order, so
    every receiver of that name is removed, duplicates included. *)
Theorem useDeleteContactPoint_removes_every_match
    (alertmanager query : jsstring) (w : World)
    (config : AlertManagerCortexConfig) (entries : list Receiver) :
  shouldUseK8sApi alertmanager = false ->
  configs w !! alertmanager = Some config ->
  receivers (alertmanager_config config) = Some entries ->
  exists kept newConfig,
    issued (useDeleteContactPoint alertmanager query w).2
      = UpdateAlertmanagerConfiguration alertmanager newConfig :: issued w /\
    receivers (alertmanager_config newConfig) = Some kept /\
    am_rest (alertmanager_config newConfig) = am_rest (alertmanager_config config) /\
    template_files newConfig = template_files config /\
    kept = filter (fun receiver => name receiver <> query) entries /\
    (query ∉ name <$> kept) /\
    (forall r, r ∈ kept <-> r ∈ entries /\ name r <> query) /\
    kept `sublist_of` entries.
Proof.
  intros Hlegacy Hcfg Hrs.
  exists (remove (fun receiver => strict_eq (name receiver) query) entries),
    (withoutReceiver query config).
  rewrite (useDeleteContactPoint_legacy_run _ _ _ _ Hlegacy Hcfg), unwrapped_issued.
  split; [reflexivity|].
  split; [unfold withoutReceiver; simpl; by rewrite Hrs|].
  split; [reflexivity|]. split; [reflexivity|].
  split; [apply remove_by_name|].
  split.
  - intros Hin. apply list_elem_of_fmap in Hin as (r & Hname & Hr).
    apply remove_keeps in Hr as [_ Hne]. congruence.
  - split; [intros r; apply remove_keeps|apply remove_sublist].
Qed.

(** X2. When no receiver has the given name, or the document has no
    receivers at all, the delete operation still issues a configuration
    write, and what it writes is the fetched document unchanged. *)
Theorem useDeleteContactPoint_absent_name
    (alertmanager query : jsstring) (w : World) (config : AlertManagerCortexConfig) :
  shouldUseK8sApi alertmanager = false ->
  configs w !! alertmanager = Some config ->
  (receivers (alertmanager_config config) = None \/
   exists entries,
     receivers (alertmanager_config config) = Some entries /\ query ∉ name <$> entries) ->
  issued (useDeleteContactPoint alertmanager query w).2
    = UpdateAlertmanagerConfiguration alertmanager config :: issued w.
Proof.
  intros Hlegacy Hcfg Habsent.
  rewrite (useDeleteContactPoint_legacy_run _ _ _ _ Hlegacy Hcfg), unwrapped_issued.
  by rewrite (withoutReceiver_absent _ _ Habsent).
Qed.

(** X3. When the backend refuses the configuration write, the delete
    operation rejects with the backend's error. *)
Theorem useDeleteContactPoint_write_refused
    (alertmanager query : jsstring) (w : World) (config : AlertManagerCortexConfig)
    (e : Error) :
  shouldUseK8sApi alertmanager = false ->
  configs w !! alertmanager = Some config ->
  respond (UpdateAlertmanagerConfiguration alertmanager (withoutReceiver query config))
    = Throw e ->
  (useDeleteContactPoint alertmanager query w).1 = Throw e.
Proof.
  intros Hlegacy Hcfg Hrefuse.
  rewrite (useDeleteContactPoint_legacy_run _ _ _ _ Hlegacy Hcfg).
  unfold andThen, mutate. rewrite Hrefuse. reflexivity.
Qed.

(** X4. On the structured backend the delete operation issues one request,
    the delete of the receiver of that name in the namespace; it does not
    read or write the configuration document, and it resolves or rejects as
    the backend answers that request. *)
Theorem useDeleteContactPoint_k8s
    (alertmanager query : jsstring) (w : World) :
  shouldUseK8sApi alertmanager = true ->
  issued (useDeleteContactPoint alertmanager query w).2
    = DeleteNamespacedReceiver query getK8sNamespace :: issued w /\
  configs (useDeleteContactPoint alertmanager query w).2 = configs w /\
  (useDeleteContactPoint alertmanager query w).1
    = match respond (DeleteNamespacedReceiver query getK8sNamespace) with
      | Ok reply => Ok (Some reply)
      | Throw e => Throw e
      end.
Proof.
  intros Hk8s. unfold useDeleteContactPoint. rewrite Hk8s.
  unfold andThen, mutate, resolve.
  destruct (respond (DeleteNamespacedReceiver query getK8sNamespace)); auto.
Qed.

Lemma find_after_remove (query : jsstring) (l : list Receiver) :
  List.find (fun contactPoint => strict_eq (name contactPoint) query)
    (remove (fun receiver => strict_eq (name receiver) query) l) = None.
Proof.
  unfold remove. induction l as [|a l IH]; simpl; [reflexivity|].
  destruct (strict_eq (name a) query) eqn:Ha; simpl; [exact IH|]. by rewrite Ha.
Qed.

(** X5. After a delete that the backend accepted, validating the deleted
    name finds no duplicate: the name is free again. *)
Theorem validate_after_delete
    (alertmanager query : jsstring) (w : World) (config : AlertManagerCortexConfig)
    (reply : Reply) :
  shouldUseK8sApi alertmanager = false ->
  configs w !! alertmanager = Some config ->
  respond (UpdateAlertmanagerConfiguration alertmanager (withoutReceiver query config))
    = Ok reply ->
  (useValidateContactPoint alertmanager query None
     (useDeleteContactPoint alertmanager query w).2).1 = Ok None.
Proof.
  intros Hlegacy Hcfg Haccept.
  rewrite (useDeleteContactPoint_legacy_run _ _ _ _ Hlegacy Hcfg).
  rewrite (unwrapped_accepted_update _ _ _ _ Haccept).
  unfold useValidateContactPoint, andThen, getConfig_unwrap, resolve.
  rewrite Hlegacy. simpl. rewrite lookup_insert_eq. simpl.
  destruct (receivers (alertmanager_config config)) as [entries|]; simpl; [|reflexivity].
  by rewrite find_after_remove.
Qed.

(** X6. Deleting the same name twice writes the same document twice: the
    second delete removes nothing more. *)
Theorem useDeleteContactPoint_twice
    (alertmanager query : jsstring) (w : World) (config : AlertManagerCortexConfig)
    (reply : Reply) :
  shouldUseK8sApi alertmanager = false ->
  configs w !! alertmanager = Some config ->
  respond (UpdateAlertmanagerConfiguration alertmanager (withoutReceiver query config))
    = Ok reply ->
  useDeleteContactPoint alertmanager query (useDeleteContactPoint alertmanager query w).2
  = (Ok (Some reply),
     {| configs := <[alertmanager := withoutReceiver query config]> (configs w);
        issued :=
          UpdateAlertmanagerConfiguration alertmanager (withoutReceiver query config)
          :: UpdateAlertmanagerConfiguration alertmanager (withoutReceiver query config)
          :: issued w |}).
Proof.
  intros Hlegacy Hcfg Haccept.
  rewrite (useDeleteContactPoint_legacy_run _ _ _ _ Hlegacy Hcfg).
  rewrite (unwrapped_accepted_update _ _ _ _ Haccept).
  rewrite (useDeleteContactPoint_legacy_run _ _ _ (withoutReceiver query config) Hlegacy)
    by (simpl; apply lookup_insert_eq).
  rewrite withoutReceiver_idempotent.
  rewrite (unwrapped_accepted_update _ _ _ _ Haccept). simpl.
  by rewrite insert_insert_eq.
Qed.

(** *** Normalising the fetched lists *)

Lemma parseK8sReceiver_throws (item : K8sReceiver) (e : Error) :
  parseK8sReceiver item = Throw e -> e = TypeError /\ metadata item = None.
Proof.
  unfold parseK8sReceiver. destruct (metadata item); [discriminate|].
  intros H. injection H as <-. auto.
Qed.

Lemma map_throwing_parse_returns (l : list K8sReceiver) :
  (exists parsed, map_throwing parseK8sReceiver l = Ok parsed) <->
  Forall (fun item => is_Some (metadata item)) l.
Proof.
  induction l as [|item l IH]; simpl.
  - split; [constructor|eauto].
  - rewrite list.Forall_cons, <- IH. unfold parseK8sReceiver at 1.
    destruct (metadata item) as [meta|]; simpl.
    + destruct (map_throwing parseK8sReceiver l) as [parsed|e]; simpl.
      * split; [eauto|]. intros _. eauto.
      * split; [intros [? ?]; discriminate|]. intros [_ [? ?]]. discriminate.
    + split; [intros [? ?]; discriminate|]. intros [[? ?] _]. discriminate.
Qed.

Lemma map_throwing_parse_throws (l : list K8sReceiver) (e : Error) :
  map_throwing parseK8sReceiver l = Throw e -> e = TypeError.
Proof.
  induction l as [|item l IH]; simpl; [discriminate|].
  destruct (parseK8sReceiver item) as [cp|e0] eqn:Hitem; simpl.
  - destruct (map_throwing parseK8sReceiver l) as [parsed|e1]; simpl; [discriminate|].
    intros H. injection H as <-. by apply IH.
  - intros H. injection H as <-. by apply parseK8sReceiver_throws in Hitem as [-> _].
Qed.

Lemma map_throwing_parse_fields (l : list K8sReceiver)
    (parsed : list GrafanaManagedContactPoint) :
  map_throwing parseK8sReceiver l = Ok parsed ->
  name <$> parsed = (fun item => title (spec item)) <$> l /\
  grafana_managed_receiver_configs <$> parsed
    = (fun item => Some (integrations (spec item))) <$> l /\
  provisioned <$> parsed = (fun item => Some (isK8sEntityProvisioned item)) <$> l.
Proof.
  revert parsed. induction l as [|item l IH]; simpl; intros parsed H.
  - injection H as <-. auto.
  - unfold parseK8sReceiver at 1 in H. destruct (metadata item) as [meta|]; [|discriminate].
    simpl in H. destruct (map_throwing parseK8sReceiver l) as [rest|e]; [|discriminate].
    simpl in H. injection H as <-. destruct (IH rest eq_refl) as (Hn & Hc & Hp).
    rewrite !fmap_cons, Hn, Hc, Hp. auto.
Qed.

(** X7. The structured list normalises exactly when every fetched resource
    has metadata; one resource without metadata makes the whole selection
    throw a TypeError. *)
Theorem useK8sContactPoints_returns_iff
    (namespace : jsstring) (skip : bool) (fetched : ReceiverList) :
  data (useListNamespacedReceiverQuery generatedReceiversApi namespace skip)
    = Some fetched ->
  ((exists normalised, useK8sContactPoints namespace skip = Ok normalised) <->
   Forall (fun item => is_Some (metadata item)) (items fetched)) /\
  (forall e, useK8sContactPoints namespace skip = Throw e -> e = TypeError).
Proof.
  intros Hdata. unfold useK8sContactPoints. rewrite Hdata.
  rewrite <- map_throwing_parse_returns.
  destruct (map_throwing parseK8sReceiver (items fetched)) as [parsed|e0] eqn:Hmap; simpl.
  - split; [|discriminate]. split; eauto.
  - split.
    + split; intros [? ?]; discriminate.
    + intros e H. injection H as <-. by apply map_throwing_parse_throws in Hmap.
Qed.

(** X8. When the structured list normalises, it has one contact point per
    fetched resource, in the same order: the names are the titles, the
    integration configs are the integrations, every one carries a
    provisioned flag, and the loading flag and the error pass through. *)
Theorem useK8sContactPoints_in_order
    (namespace : jsstring) (skip : bool) (fetched : ReceiverList)
    (normalised : QueryResult (list GrafanaManagedContactPoint)) :
  useK8sContactPoints namespace skip = Ok normalised ->
  data (useListNamespacedReceiverQuery generatedReceiversApi namespace skip)
    = Some fetched ->
  exists parsed,
    data normalised = Some parsed /\
    name <$> parsed = (fun item => title (spec item)) <$> items fetched /\
    grafana_managed_receiver_configs <$> parsed
      = (fun item => Some (integrations (spec item))) <$> items fetched /\
    provisioned <$> parsed
      = (fun item => Some (isK8sEntityProvisioned item)) <$> items fetched /\
    isLoading normalised
      = isLoading (useListNamespacedReceiverQuery generatedReceiversApi namespace skip) /\
    error normalised
      = error (useListNamespacedReceiverQuery generatedReceiversApi namespace skip).
Proof.
  unfold useK8sContactPoints. intros Hrun Hdata. rewrite Hdata in Hrun.
  destruct (map_throwing parseK8sReceiver (items fetched)) as [parsed|e] eqn:Hmap;
    simpl in Hrun; [|discriminate].
  injection Hrun as <-. exists parsed. simpl.
  destruct (map_throwing_parse_fields _ _ Hmap) as (Hn & Hc & Hp).
  repeat (split; [assumption || reflexivity|]). reflexivity.
Qed.

Lemma fmap_withProvisioned (entries : list GrafanaManagedContactPoint) :
  name <$> (withProvisioned <$> entries) = name <$> entries /\
  id <$> (withProvisioned <$> entries) = id <$> entries /\
  grafana_managed_receiver_configs <$> (withProvisioned <$> entries)
    = grafana_managed_receiver_configs <$> entries /\
  cloud_configs <$> (withProvisioned <$> entries) = cloud_configs <$> entries.
Proof.
  rewrite <- !list_fmap_compose. repeat split; apply list_fmap_ext; by intros.
Qed.

(** X9. On the configuration-document backend the list fetch hands on what
    the list endpoint returned: loading flag and error as they are, no data
    exactly when the endpoint has none, and otherwise one contact point per
    fetched item, in order, with the item's name, id and integration configs
    untouched. *)
Theorem useFetchGrafanaContactPoints_legacy_passthrough
    (skip : option bool) (fetched : QueryResult (list GrafanaManagedContactPoint)) :
  shouldUseK8sApi GRAFANA_RULES_SOURCE_NAME = false ->
  useFetchGrafanaContactPoints skip = Ok fetched ->
  isLoading fetched
    = isLoading (useGetContactPointsListQuery alertmanagerApi (truthy_bool skip || false)) /\
  error fetched
    = error (useGetContactPointsListQuery alertmanagerApi (truthy_bool skip || false)) /\
  (data fetched = None <->
   data (useGetContactPointsListQuery alertmanagerApi (truthy_bool skip || false)) = None) /\
  (forall entries,
      data (useGetContactPointsListQuery alertmanagerApi (truthy_bool skip || false))
        = Some entries ->
      exists contactPoints,
        data fetched = Some contactPoints /\
        name <$> contactPoints = name <$> entries /\
        id <$> contactPoints = id <$> entries /\
        grafana_managed_receiver_configs <$> contactPoints
          = grafana_managed_receiver_configs <$> entries /\
        cloud_configs <$> contactPoints = cloud_configs <$> entries).
Proof.
  intros Hlegacy. unfold useFetchGrafanaContactPoints. rewrite Hlegacy.
  destruct (useK8sContactPoints _ _) as [k8sResponse|e]; simpl; [|discriminate].
  intros H. injection H as <-. simpl.
  split; [reflexivity|]. split; [reflexivity|]. split.
  - destruct (data (useGetContactPointsListQuery alertmanagerApi _)); simpl;
      split; (discriminate || reflexivity).
  - intros entries ->. simpl. eexists. split; [reflexivity|]. apply fmap_withProvisioned.
Qed.

(** X10. Whenever the enriched result says it is loading, it carries no
    contact points: a partial list is never handed on. *)
Theorem useGrafanaContactPoints_loading_is_empty
    (fetchStatuses fetchPolicies skip : option bool)
    (result : WithContactPoints (list GrafanaManagedContactPoint) Enhanced) :
  useGrafanaContactPoints fetchStatuses fetchPolicies skip = Ok result ->
  isLoading (response result) = true ->
  contactPoints result = [].
Proof.
  unfold useGrafanaContactPoints.
  destruct (useFetchGrafanaContactPoints skip) as [listResponse|e]; simpl; [|discriminate].
  intros H. injection H as <-. unfold combineGrafanaContactPoints.
  destruct (isLoading (useOnCallIntegrations skip)
            || isLoading (useGrafanaNotifiersQuery alertmanagerApi (truthy_bool skip))
            || isLoading listResponse) eqn:Hloading;
    destruct (data listResponse); simpl; try reflexivity.
  intros Hl. apply orb_false_elim in Hloading as [_ Hlist]. congruence.
Qed.

(** X11. As long as the structured list query holds no data (it is skipped,
    or has not answered), the enriched hook returns a result; only a fetched
    resource without metadata can make it throw. *)
Theorem useGrafanaContactPoints_returns
    (fetchStatuses fetchPolicies skip : option bool) :
  data (useListNamespacedReceiverQuery generatedReceiversApi getK8sNamespace
          (truthy_bool skip || negb (shouldUseK8sApi GRAFANA_RULES_SOURCE_NAME))) = None ->
  exists result, useGrafanaContactPoints fetchStatuses fetchPolicies skip = Ok result.
Proof.
  intros Hdata.
  unfold useGrafanaContactPoints, useFetchGrafanaContactPoints, useK8sContactPoints.
  rewrite Hdata. simpl. eauto.
Qed.

(** *** Lookup by name: plain names, malformed names, nothing to search *)

Lemma decodeURIComponent_plain (s : jsstring) :
  Forall (fun c => c <> 37) s -> decodeURIComponent s = Ok s.
Proof.
  induction s as [|c t IH]; intros Hplain; [reflexivity|].
  apply list.Forall_cons in Hplain as [Hc Ht].
  cbn [decodeURIComponent]. apply N.eqb_neq in Hc. rewrite Hc.
  rewrite (IH Ht). reflexivity.
Qed.

Lemma rbind_cons_throws (r : Result jsstring) (prefix : jsstring) (e : Error) :
  rbind r (fun rest => Ok (prefix ++ rest)) = Throw e -> r = Throw e.
Proof. destruct r; simpl; [discriminate|]. intros H. by injection H as <-. Qed.

Lemma decoded_throws (octets : list N) (rest : Result jsstring) (e : Error) :
  decoded octets rest = Throw e -> e = URIError \/ rest = Throw e.
Proof.
  unfold decoded. destruct (utf8_code_point octets).
  - intros H. right. by apply rbind_cons_throws in H.
  - intros H. injection H as <-. by left.
Qed.

Lemma decodeURIComponent_throws_sized (n : nat) (s : jsstring) (e : Error) :
  (length s <= n)%nat -> decodeURIComponent s = Throw e -> e = URIError.
Proof.
  revert s. induction n as [|n IH]; intros s Hlen H.
  { destruct s; [discriminate|simpl in Hlen; lia]. }
  destruct s as [|c t]; [discriminate|]. simpl in Hlen.
  cbn [decodeURIComponent] in H.
  destruct (c =? 37).
  2:{ apply (rbind_cons_throws _ [c]) in H. apply (IH t); [lia|exact H]. }
  destruct t as [|h [|l t1]]; try (injection H as <-; reflexivity).
  simpl in Hlen.
  destruct (ParseHexOctet h l) as [b|]; [|injection H as <-; reflexivity].
  destruct (leading_ones b) as [|[|[|[|[|k]]]]]; try (injection H as <-; reflexivity).
  - apply (rbind_cons_throws _ [b]) in H. apply (IH t1); [lia|exact H].
  - destruct t1 as [|p1 [|h1 [|l1 t2]]]; try (injection H as <-; reflexivity).
    simpl in Hlen.
    destruct (escape_octet p1 h1 l1); [|injection H as <-; reflexivity].
    apply decoded_throws in H as [->|H]; [reflexivity|]. apply (IH t2); [lia|exact H].
  - destruct t1 as [|p1 [|h1 [|l1 [|p2 [|h2 [|l2 t3]]]]]];
      try (injection H as <-; reflexivity).
    simpl in Hlen.
    destruct (escape_octet p1 h1 l1), (escape_octet p2 h2 l2);
      try (injection H as <-; reflexivity).
    apply decoded_throws in H as [->|H]; [reflexivity|]. apply (IH t3); [lia|exact H].
  - destruct t1 as [|p1 [|h1 [|l1 [|p2 [|h2 [|l2 [|p3 [|h3 [|l3 t4]]]]]]]]];
      try (injection H as <-; reflexivity).
    simpl in Hlen.
    destruct (escape_octet p1 h1 l1), (escape_octet p2 h2 l2), (escape_octet p3 h3 l3);
      try (injection H as <-; reflexivity).
    apply decoded_throws in H as [->|H]; [reflexivity|]. apply (IH t4); [lia|exact H].
Qed.

Lemma decodeURIComponent_throws (s : jsstring) (e : Error) :
  decodeURIComponent s = Throw e -> e = URIError.
Proof. apply (decodeURIComponent_throws_sized (length s)). lia. Qed.

(** X12. For names without a percent sign, on both sides, the lookup
    compares the names as they are: a receiver matches exactly when its name
    is equal to the query name. *)
Theorem lookup_plain_names
    (query : jsstring) (receiver : Receiver) :
  Forall (fun c => c <> 37) query ->
  Forall (fun c => c <> 37) (name receiver) ->
  sameDecodedName query receiver = Ok (strict_eq (name receiver) query).
Proof.
  intros Hq Hr. unfold sameDecodedName.
  rewrite (decodeURIComponent_plain _ Hr), (decodeURIComponent_plain _ Hq). reflexivity.
Qed.

(** X13. A query name that does not decode (a stray or truncated percent
    escape, an escape that is not UTF-8) makes the lookup throw a URIError as
    soon as the configuration has a receiver to compare with. *)
Theorem lookup_malformed_query
    (alertmanager query : jsstring) (skip : bool) (config : AlertManagerCortexConfig)
    (first : Receiver) (others : list Receiver) (e : Error) :
  decodeURIComponent query = Throw e ->
  data (useGetAlertmanagerConfigurationQuery alertmanagerApi alertmanager skip)
    = Some config ->
  receivers (alertmanager_config config) = Some (first :: others) ->
  useGetAlertmanagerContactPoint alertmanager query skip = Throw URIError.
Proof.
  intros Hquery Hdata Hrs.
  unfold useGetAlertmanagerContactPoint, selectContactPoint. rewrite Hdata, Hrs.
  cbn [find_throwing]. unfold sameDecodedName.
  destruct (decodeURIComponent (name first)) as [mine|e0] eqn:Hfirst; simpl.
  - rewrite Hquery. simpl. by rewrite (decodeURIComponent_throws _ _ Hquery).
  - by rewrite (decodeURIComponent_throws _ _ Hfirst).
Qed.

(** X14. With no configuration data, no receivers key or an empty receivers
    list, the lookup returns no contact point, whatever the query name is,
    malformed ones included, and hands on the loading flag and the error. *)
Theorem lookup_nothing_to_search
    (alertmanager query : jsstring) (skip : bool) :
  (data (useGetAlertmanagerConfigurationQuery alertmanagerApi alertmanager skip) = None \/
   exists config,
     data (useGetAlertmanagerConfigurationQuery alertmanagerApi alertmanager skip)
       = Some config /\
     (receivers (alertmanager_config config) = None \/
      receivers (alertmanager_config config) = Some [])) ->
  useGetAlertmanagerContactPoint alertmanager query skip
  = Ok {| isLoading :=
            isLoading (useGetAlertmanagerConfigurationQuery alertmanagerApi alertmanager skip);
          data := None;
          error :=
            error (useGetAlertmanagerConfigurationQuery alertmanagerApi alertmanager skip) |}.
Proof.
  unfold useGetAlertmanagerContactPoint, selectContactPoint.
  intros [->|(config & -> & [->| ->])]; reflexivity.
Qed.

(** X15. For an alertmanager other than Grafana's, [useGetContactPoint]
    returns, when it returns, the lookup in that alertmanager's
    configuration. *)
Theorem useGetContactPoint_external
    (alertmanager query : jsstring) (selected : QueryResult Receiver) :
  alertmanager <> GRAFANA_RULES_SOURCE_NAME ->
  useGetContactPoint alertmanager query = Ok selected ->
  useGetAlertmanagerContactPoint alertmanager query false = Ok selected.
Proof.
  intros Hne. unfold useGetContactPoint, strict_eq.
  rewrite bool_decide_eq_false_2 by exact Hne.
  destruct (useGetGrafanaContactPoint query (negb false)); simpl; [|discriminate].
  destruct (useGetAlertmanagerContactPoint alertmanager query false); simpl; [|discriminate].
  intros H. by injection H as <-.
Qed.

(** X16. For Grafana's alertmanager, [useGetContactPoint] returns, when it
    returns, the parsed resource read by name on the structured backend
    (nothing when the read has no data), and the lookup in the Grafana
    configuration on the other backend. *)
Theorem useGetContactPoint_grafana
    (query : jsstring) (selected : QueryResult Receiver) :
  useGetContactPoint GRAFANA_RULES_SOURCE_NAME query = Ok selected ->
  if shouldUseK8sApi GRAFANA_RULES_SOURCE_NAME
  then
    match data (useReadNamespacedReceiverQuery generatedReceiversApi getK8sNamespace
                  query false) with
    | Some item => exists cp, parseK8sReceiver item = Ok cp /\ data selected = Some cp
    | None => data selected = None
    end
  else useGetAlertmanagerContactPoint GRAFANA_RULES_SOURCE_NAME query false = Ok selected.
Proof.
  unfold useGetContactPoint, strict_eq. rewrite bool_decide_eq_true_2 by reflexivity.
  unfold useGetGrafanaContactPoint. simpl negb.
  destruct (shouldUseK8sApi GRAFANA_RULES_SOURCE_NAME); simpl.
  - destruct (data (useReadNamespacedReceiverQuery _ _ _ _)) as [item|]; simpl.
    + destruct (parseK8sReceiver item) as [cp|e]; simpl; [|discriminate].
      destruct (useGetAlertmanagerContactPoint GRAFANA_RULES_SOURCE_NAME query true);
        simpl; [|discriminate].
      intros H. injection H as <-. eauto.
    + destruct (useGetAlertmanagerContactPoint GRAFANA_RULES_SOURCE_NAME query true);
        simpl; [|discriminate].
      intros H. by injection H as <-.
  - set (parsed :=
      match data (useReadNamespacedReceiverQuery generatedReceiversApi getK8sNamespace
                    query true) with
      | Some item => rbind (parseK8sReceiver item) (fun cp => Ok (Some cp))
      | None => Ok None
      end).
    destruct parsed as [chosen|e]; simpl; [|discriminate].
    destruct (useGetAlertmanagerContactPoint GRAFANA_RULES_SOURCE_NAME query false)
      as [grafanaResponse|e]; simpl; [|discriminate].
    destruct (useGetAlertmanagerContactPoint GRAFANA_RULES_SOURCE_NAME query true);
      simpl; [|discriminate].
    intros H. exact H.
Qed.

(** *** The list for an external alertmanager *)

(** X17. For an alertmanager other than Grafana's, the list hook hands on
    the configuration response as the query returned it, the loading flag
    included; without data it carries no contact points, and with data the
    contact points are enhanced from the document's receivers (the empty
    list when the document has none), with the cloud notifier catalogue and
    without status or OnCall integrations. *)
Theorem useContactPointsWithStatus_external
    (alertmanager : jsstring) (fetchStatuses fetchPolicies : option bool)
    (result : WithContactPoints (list GrafanaManagedContactPoint) Enhanced
              + WithContactPoints AlertManagerCortexConfig Enhanced) :
  alertmanager <> GRAFANA_RULES_SOURCE_NAME ->
  useContactPointsWithStatus alertmanager fetchStatuses fetchPolicies = Ok result ->
  exists external,
    result = inr external /\
    response external
      = useGetAlertmanagerConfigurationQuery alertmanagerApi alertmanager false /\
    match data (useGetAlertmanagerConfigurationQuery alertmanagerApi alertmanager false) with
    | None => contactPoints external = []
    | Some config =>
        contactPoints external =
          enhanceContactPointsWithMetadata
            (Build_EnhanceArgs None (Some cloudNotifierTypes) None
               match receivers (alertmanager_config config) with
               | Some entries => entries
               | None => []
               end
               (Some config))
    end.
Proof.
  intros Hne. unfold useContactPointsWithStatus, strict_eq.
  rewrite bool_decide_eq_false_2 by exact Hne.
  destruct (useGrafanaContactPoints _ _ _) as [grafanaResponse|e]; simpl; [|discriminate].
  intros H. injection H as <-. eexists. split; [reflexivity|]. simpl.
  split; [reflexivity|].
  destruct (data (useGetAlertmanagerConfigurationQuery alertmanagerApi alertmanager false))
    as [config|]; [|reflexivity].
  by destruct (receivers (alertmanager_config config)).
Qed.

(** *** Create or update *)

(** X18. For an alertmanager other than Grafana's on the
    configuration-document backend, the create-or-update closure does not
    provision OnCall, and it dispatches nothing before it has a merged
    document: when the configuration fetch fails, or merging the receiver
    into the document throws, it rejects with that error and the backend is
    as it was; when the update action rejects, it rejects with that error
    and no cache tag is invalidated. *)
Theorem createOrUpdateInConfiguration_external
    (alertmanager : jsstring) (args : CreateOrUpdateArgs) (w : World) :
  alertmanager <> GRAFANA_RULES_SOURCE_NAME ->
  (configs w !! alertmanager = None ->
   createOrUpdateInConfiguration alertmanager args w = (Throw RequestFailed, w)) /\
  (forall config e,
      configs w !! alertmanager = Some config ->
      updateConfigWithReceiver config (contactPoint args) (originalName args) = Throw e ->
      createOrUpdateInConfiguration alertmanager args w = (Throw e, w)) /\
  (forall config newConfig e w',
      configs w !! alertmanager = Some config ->
      updateConfigWithReceiver config (contactPoint args) (originalName args)
        = Ok newConfig ->
      updateAlertManagerConfigAction newConfig config alertmanager w = (Throw e, w') ->
      createOrUpdateInConfiguration alertmanager args w = (Throw e, w')).
Proof.
  intros Hne. unfold createOrUpdateInConfiguration, strict_eq.
  rewrite bool_decide_eq_false_2 by exact Hne.
  unfold andThen, resolve, getConfig_unwrap, settle.
  split; [|split].
  - intros ->. reflexivity.
  - intros config e -> ->. reflexivity.
  - intros config newConfig e w' -> -> ->. reflexivity.
Qed.

(** X19. For Grafana's alertmanager on the configuration-document backend,
    OnCall provisioning comes first: when it rejects, the closure rejects
    with its error and neither fetches nor dispatches; when it resolves, the
    configuration is fetched from the backend as provisioning left it, and a
    failed fetch rejects before anything is dispatched. *)
Theorem createOrUpdateInConfiguration_grafana
    (args : CreateOrUpdateArgs) (w : World) :
  (forall e w',
      createOnCallIntegrations (contactPoint args) w = (Throw e, w') ->
      createOrUpdateInConfiguration GRAFANA_RULES_SOURCE_NAME args w = (Throw e, w')) /\
  (forall receiver w',
      createOnCallIntegrations (contactPoint args) w = (Ok receiver, w') ->
      configs w' !! GRAFANA_RULES_SOURCE_NAME = None ->
      createOrUpdateInConfiguration GRAFANA_RULES_SOURCE_NAME args w
        = (Throw RequestFailed, w')) /\
  (forall receiver w' config e,
      createOnCallIntegrations (contactPoint args) w = (Ok receiver, w') ->
      configs w' !! GRAFANA_RULES_SOURCE_NAME = Some config ->
      updateConfigWithReceiver config receiver (originalName args) = Throw e ->
      createOrUpdateInConfiguration GRAFANA_RULES_SOURCE_NAME args w = (Throw e, w')).
Proof.
  unfold createOrUpdateInConfiguration, strict_eq.
  rewrite bool_decide_eq_true_2 by reflexivity.
  unfold andThen, resolve, getConfig_unwrap, settle.
  split; [|split].
  - intros e w' ->. reflexivity.
  - intros receiver w' -> ->. reflexivity.
  - intros receiver w' config e -> -> ->. reflexivity.
Qed.

(** X20. On the structured backend the create-or-update operation never
    touches the configuration document, and it resolves or rejects as the
    backend answers the one request it issues: the create request when no
    identifier is supplied, the replace request when an identifier and an
    original name are. *)
Theorem useCreateOrUpdateContactPoint_k8s_outcome
    (alertmanager : jsstring) (args : CreateOrUpdateArgs) (w : World) :
  shouldUseK8sApi alertmanager = true ->
  configs (useCreateOrUpdateContactPoint alertmanager args w).2 = configs w /\
  (truthy_string (arg_id args) = false ->
   (useCreateOrUpdateContactPoint alertmanager args w).1 =
     match respond (CreateNamespacedReceiver getK8sNamespace
                      (grafanaContactPointToK8sReceiver (contactPoint args) (arg_id args)))
     with
     | Ok reply => Ok (Some reply)
     | Throw e => Throw e
     end) /\
  (forall ident,
      arg_id args = Some ident ->
      truthy_string (arg_id args) = true ->
      truthy_string (originalName args) = true ->
      (useCreateOrUpdateContactPoint alertmanager args w).1 =
        match respond (ReplaceNamespacedReceiver ident getK8sNamespace
                         (grafanaContactPointToK8sReceiver (contactPoint args)
                            (arg_id args)))
        with
        | Ok reply => Ok (Some reply)
        | Throw e => Throw e
        end).
Proof.
  intros Hk8s. unfold useCreateOrUpdateContactPoint. rewrite Hk8s.
  unfold andThen, mutate, resolve.
  split; [|split].
  - destruct (arg_id args) as [[|c ident]|]; [| |].
    + by destruct (respond _).
    + destruct (truthy_string (originalName args)); [|reflexivity].
      by destruct (respond _).
    + by destruct (respond _).
  - intros Hid. destruct (arg_id args) as [[|c ident]|]; [|discriminate|].
    + by destruct (respond _).
    + by destruct (respond _).
  - intros ident Hident Hid Horig. rewrite Hident in *.
    destruct ident as [|c ident]; [discriminate|]. rewrite Horig.
    by destruct (respond _).
Qed.

End Hooks.

(** ** The properties at concrete backends *)

Lemma useGrafanaContactPoints_isLoading_witness :
  useFetchGrafanaContactPoints Sample.alertmanagerApi Sample.generatedReceiversApi
    Sample.grafana Sample.namespace Sample.notProvisioned Sample.legacy None
    = Ok (Sample.settled [withProvisioned (Sample.receiver "ops" [Sample.webhook])]) /\
  exists result,
    useGrafanaContactPoints Sample.alertmanagerApi Sample.onCallApi
      Sample.generatedReceiversApi Sample.usePluginBridge Sample.enhance
      Sample.grafana Sample.namespace Sample.notProvisioned Sample.legacy
      (Some true) None None = Ok result /\
    isLoading (response result) = false.
Proof.
  split; [reflexivity|].
  apply (useGrafanaContactPoints_isLoading Sample.alertmanagerApi Sample.onCallApi
           Sample.generatedReceiversApi Sample.usePluginBridge Sample.enhance
           Sample.grafana Sample.namespace Sample.notProvisioned Sample.legacy
           (Some true) None None
           (Sample.settled [withProvisioned (Sample.receiver "ops" [Sample.webhook])])).
  reflexivity.
Defined.

(** The status fetch was asked for and is still loading, the three other
    fetches are done: the enriched result says it is not loading. *)
Lemma useGrafanaContactPoints_ignores_status_loading :
  isLoading (useGetContactPointsStatusQuery Sample.alertmanagerApi
               (truthy_bool None || negb (truthy_bool (Some true)))) = true /\
  exists result,
    useGrafanaContactPoints Sample.alertmanagerApi Sample.onCallApi
      Sample.generatedReceiversApi Sample.usePluginBridge Sample.enhance
      Sample.grafana Sample.namespace Sample.notProvisioned Sample.legacy
      (Some true) None None = Ok result /\
    isLoading (response result) = false.
Proof. split; [reflexivity|]. eexists. split; reflexivity. Qed.

Lemma useDeleteContactPoint_removes_one_witness :
  exists before r after newConfig,
    [Sample.receiver "a b" [Sample.email]; Sample.receiver "ops" [Sample.webhook];
     Sample.receiver "dev" []] = before ++ r :: after /\
    name r = str "ops" /\
    receivers (alertmanager_config newConfig) = Some (before ++ after) /\
    issued (useDeleteContactPoint Sample.namespace Sample.legacy Sample.accept
              Sample.grafana (str "ops") Sample.world).2
      = [UpdateAlertmanagerConfiguration Sample.grafana newConfig].
Proof.
  destruct (useDeleteContactPoint_removes_one Sample.namespace Sample.legacy Sample.accept
              Sample.grafana (str "ops") Sample.world Sample.config
              [Sample.receiver "a b" [Sample.email]; Sample.receiver "ops" [Sample.webhook];
               Sample.receiver "dev" []])
    as (before & r & after & newConfig & H1 & H2 & H3 & _ & _ & H6 & _).
  - reflexivity.
  - reflexivity.
  - reflexivity.
  - compute_done.
  - compute_done.
  - exists before, r, after, newConfig. auto.
Defined.

Lemma parseK8sReceiver_of_grafanaContactPointToK8sReceiver_witness :
  truthy_string (Some (str "b3Bz")) = true /\
  exists parsed,
    parseK8sReceiver Sample.notProvisioned
      (grafanaContactPointToK8sReceiver (Sample.receiver "ops" [Sample.webhook])
         (Some (str "b3Bz"))) = Ok parsed /\
    meta_name <$> metadata
      (grafanaContactPointToK8sReceiver (Sample.receiver "ops" [Sample.webhook])
         (Some (str "b3Bz"))) = Some (Some (str "b3Bz")) /\
    name parsed = str "ops" /\
    grafana_managed_receiver_configs parsed = Some [Sample.webhook] /\
    id parsed = None.
Proof.
  split; [reflexivity|].
  apply (parseK8sReceiver_of_grafanaContactPointToK8sReceiver Sample.notProvisioned
           (Sample.receiver "ops" [Sample.webhook]) (Some (str "b3Bz"))).
  reflexivity.
Defined.

(** The identifier goes out as the metadata name and does not come back:
    the parsed id is read from the metadata uid. *)
Lemma roundtrip_does_not_return_the_identifier :
  exists parsed,
    parseK8sReceiver Sample.notProvisioned
      (grafanaContactPointToK8sReceiver (Sample.receiver "ops" [Sample.webhook])
         (Some (str "b3Bz"))) = Ok parsed /\
    id parsed = None /\
    id parsed <> Some (str "b3Bz").
Proof. eexists. split; [reflexivity|]. split; [reflexivity|discriminate]. Qed.

(** The fetch of the configuration fails: the validator rejects. *)
Lemma useValidateContactPoint_rejects_when_fetch_fails :
  useValidateContactPoint Sample.legacy Sample.grafana (str "ops") None Sample.offline
    = (Throw RequestFailed, Sample.offline).
Proof. reflexivity. Qed.

Lemma useFetchGrafanaContactPoints_exposed_fields_witness :
  exists fetchedItems,
    data (useGetContactPointsListQuery Sample.alertmanagerApi
            (truthy_bool None || Sample.legacy Sample.grafana))
      = Some fetchedItems /\
    Forall2
      (fun item cp =>
         id cp = id item /\
         name cp = name item /\
         grafana_managed_receiver_configs cp = grafana_managed_receiver_configs item /\
         (is_Some (provisioned cp) <-> is_Some (grafana_managed_receiver_configs item)) /\
         exposed_fields cp =
           (if id item is Some _ then [f_id] else [])
           ++ [f_name]
           ++ (if grafana_managed_receiver_configs item is Some _
               then [f_provisioned; f_grafana_managed_receiver_configs] else []))
      fetchedItems [withProvisioned (Sample.receiver "ops" [Sample.webhook])].
Proof.
  exact (useFetchGrafanaContactPoints_exposed_fields Sample.alertmanagerApi
           Sample.generatedReceiversApi Sample.grafana Sample.namespace
           Sample.notProvisioned Sample.legacy None
           (Sample.settled [withProvisioned (Sample.receiver "ops" [Sample.webhook])])
           [withProvisioned (Sample.receiver "ops" [Sample.webhook])]
           eq_refl eq_refl).
Defined.

(** The same contact point through the two backends: the structured one
    exposes an id, the list endpoint does not. *)
Lemma backends_expose_different_fields :
  (exists fetched cp,
      useFetchGrafanaContactPoints Sample.alertmanagerApi Sample.generatedReceiversApi
        Sample.grafana Sample.namespace Sample.notProvisioned Sample.structured None
        = Ok fetched /\
      data fetched = Some [cp] /\
      exposed_fields cp
        = [f_id; f_name; f_provisioned; f_grafana_managed_receiver_configs]) /\
  (exists fetched cp,
      useFetchGrafanaContactPoints Sample.alertmanagerApi Sample.generatedReceiversApi
        Sample.grafana Sample.namespace Sample.notProvisioned Sample.legacy None
        = Ok fetched /\
      data fetched = Some [cp] /\
      exposed_fields cp = [f_name; f_provisioned; f_grafana_managed_receiver_configs]).
Proof. split; do 2 eexists; (split; [reflexivity|]); split; reflexivity. Qed.

Lemma useCreateOrUpdateContactPoint_k8s_endpoint_witness :
  Sample.structured Sample.grafana = true /\
  issued (useCreateOrUpdateContactPoint Sample.namespace Sample.structured Sample.accept
            Sample.noLegacyWrite Sample.grafana Sample.update Sample.world).2
    = [ReplaceNamespacedReceiver (str "b3Bz") Sample.namespace
         (grafanaContactPointToK8sReceiver (contactPoint Sample.update)
            (arg_id Sample.update))] /\
  ((exists ident namespace receiver,
       issued (useCreateOrUpdateContactPoint Sample.namespace Sample.structured
                 Sample.accept Sample.noLegacyWrite Sample.grafana Sample.update
                 Sample.world).2
         = ReplaceNamespacedReceiver ident namespace receiver :: issued Sample.world)
     <-> truthy_string (arg_id Sample.update) = true /\
         truthy_string (originalName Sample.update) = true).
Proof.
  split; [reflexivity|]. split; [reflexivity|].
  apply (useCreateOrUpdateContactPoint_k8s_endpoint Sample.namespace Sample.structured
           Sample.accept Sample.noLegacyWrite Sample.grafana Sample.update Sample.world).
  reflexivity.
Defined.

Lemma useCreateOrUpdateContactPoint_k8s_no_original_name_witness :
  Sample.structured Sample.grafana = true /\
  truthy_string (arg_id Sample.updateWithoutOriginalName) = true /\
  truthy_string (originalName Sample.updateWithoutOriginalName) = false /\
  useCreateOrUpdateContactPoint Sample.namespace Sample.structured Sample.accept
    Sample.noLegacyWrite Sample.grafana Sample.updateWithoutOriginalName Sample.world
    = (Ok None, Sample.world).
Proof.
  repeat (split; [reflexivity|]).
  apply (useCreateOrUpdateContactPoint_k8s_no_original_name Sample.namespace
           Sample.structured Sample.accept Sample.noLegacyWrite Sample.grafana
           Sample.updateWithoutOriginalName Sample.world); reflexivity.
Defined.

Lemma useDeleteContactPoint_no_data_witness :
  Sample.legacy Sample.grafana = false /\
  configs Sample.offline !! Sample.grafana = None /\
  useDeleteContactPoint Sample.namespace Sample.legacy Sample.accept
    Sample.grafana (str "ops") Sample.offline = (Ok None, Sample.offline).
Proof.
  repeat (split; [reflexivity|]).
  apply (useDeleteContactPoint_no_data Sample.namespace Sample.legacy Sample.accept
           Sample.grafana (str "ops") Sample.offline); reflexivity.
Defined.


(** ** [decodeURIComponent] on a few names *)

Example decode_space : decodeURIComponent (str "a%20b") = Ok (str "a b").
Proof. reflexivity. Qed.

Example decode_plain : decodeURIComponent (str "a b") = Ok (str "a b").
Proof. reflexivity. Qed.

Example decode_euro : decodeURIComponent (str "%E2%82%AC") = Ok [0x20AC].
Proof. reflexivity. Qed.

Example decode_astral : decodeURIComponent (str "%F0%9F%98%80") = Ok [0xD83D; 0xDE00].
Proof. reflexivity. Qed.

Example decode_truncated : decodeURIComponent (str "100%") = Throw URIError.
Proof. reflexivity. Qed.

Example decode_overlong : decodeURIComponent (str "%C0%80") = Throw URIError.
Proof. reflexivity. Qed.

Example decode_surrogate : decodeURIComponent (str "%ED%A0%80") = Throw URIError.
Proof. reflexivity. Qed.

(** A malformed name makes the comparison throw instead of answering. *)
Example lookup_malformed_name :
  sameDecodedName (str "ops") (Sample.receiver "100%" []) = Throw URIError.
Proof. reflexivity. Qed.

(** The lookup takes the first receiver whose decoded name matches. *)
Example lookup_encoded_query :
  find_throwing (sameDecodedName (str "a%20b"))
    [Sample.receiver "ops" []; Sample.receiver "a b" [Sample.email]]
  = Ok (Some (Sample.receiver "a b" [Sample.email])).
Proof. reflexivity. Qed.

(** Deleting ["ops"] from the sample document. *)
Example delete_ops :
  useDeleteContactPoint Sample.namespace Sample.legacy Sample.accept
    Sample.grafana (str "ops") Sample.world
  = (Ok (Some (str "ok")),
     {| configs :=
          <[Sample.grafana := withoutReceiver (str "ops") Sample.config]>
            (configs Sample.world);
        issued := [UpdateAlertmanagerConfiguration Sample.grafana
                     (withoutReceiver (str "ops") Sample.config)] |}).
Proof. reflexivity. Qed.

Example delete_ops_receivers :
  receivers (alertmanager_config (withoutReceiver (str "ops") Sample.config))
  = Some [Sample.receiver "a b" [Sample.email]; Sample.receiver "dev" []].
Proof. reflexivity. Qed.

(** A duplicate name is reported as a message. *)
Example validate_duplicate :
  useValidateContactPoint Sample.legacy Sample.grafana (str "ops") None Sample.world
  = (Ok (Some (duplicateMessage (str "ops"))), Sample.world).
Proof. reflexivity. Qed.

Example validate_fresh :
  useValidateContactPoint Sample.legacy Sample.grafana (str "a%20b") None Sample.world
  = (Ok None, Sample.world).
Proof. reflexivity. Qed.

(** ** The further properties at concrete backends *)

Lemma useDeleteContactPoint_removes_every_match_witness :
  exists newConfig,
    issued (useDeleteContactPoint Sample.namespace Sample.legacy Sample.accept
              Sample.grafana (str "ops") Sample.worldWithRepeats).2
      = [UpdateAlertmanagerConfiguration Sample.grafana newConfig] /\
    receivers (alertmanager_config newConfig) = Some [Sample.receiver "dev" []].
Proof.
  destruct (useDeleteContactPoint_removes_every_match Sample.namespace Sample.legacy
              Sample.accept Sample.grafana (str "ops") Sample.worldWithRepeats
              Sample.repeated
              [Sample.receiver "ops" [Sample.email]; Sample.receiver "dev" [];
               Sample.receiver "ops" [Sample.webhook]])
    as (kept & newConfig & H1 & H2 & _ & _ & H3 & _).
  - reflexivity.
  - reflexivity.
  - reflexivity.
  - exists newConfig. split; [exact H1|]. rewrite H2, H3. reflexivity.
Defined.

Lemma useDeleteContactPoint_absent_name_witness :
  issued (useDeleteContactPoint Sample.namespace Sample.legacy Sample.accept
            Sample.grafana (str "nobody") Sample.world).2
    = [UpdateAlertmanagerConfiguration Sample.grafana Sample.config].
Proof.
  apply (useDeleteContactPoint_absent_name Sample.namespace Sample.legacy Sample.accept
           Sample.grafana (str "nobody") Sample.world Sample.config).
  - reflexivity.
  - reflexivity.
  - right. eexists. split; [reflexivity|]. compute_done.
Defined.

Lemma useDeleteContactPoint_write_refused_witness :
  (useDeleteContactPoint Sample.namespace Sample.legacy Sample.refuse
     Sample.grafana (str "ops") Sample.world).1 = Throw RequestFailed.
Proof.
  apply (useDeleteContactPoint_write_refused Sample.namespace Sample.legacy Sample.refuse
           Sample.grafana (str "ops") Sample.world Sample.config RequestFailed);
    reflexivity.
Defined.

Lemma useDeleteContactPoint_k8s_witness :
  Sample.structured Sample.grafana = true /\
  issued (useDeleteContactPoint Sample.namespace Sample.structured Sample.accept
            Sample.grafana (str "b3Bz") Sample.world).2
    = [DeleteNamespacedReceiver (str "b3Bz") Sample.namespace].
Proof.
  split; [reflexivity|].
  apply (useDeleteContactPoint_k8s Sample.namespace Sample.structured Sample.accept
           Sample.grafana (str "b3Bz") Sample.world).
  reflexivity.
Defined.

Lemma validate_after_delete_witness :
  (useValidateContactPoint Sample.legacy Sample.grafana (str "ops") None
     (useDeleteContactPoint Sample.namespace Sample.legacy Sample.accept
        Sample.grafana (str "ops") Sample.world).2).1 = Ok None.
Proof.
  apply (validate_after_delete Sample.namespace Sample.legacy Sample.accept
           Sample.grafana (str "ops") Sample.world Sample.config (str "ok"));
    reflexivity.
Defined.

Lemma useDeleteContactPoint_twice_witness :
  issued (useDeleteContactPoint Sample.namespace Sample.legacy Sample.accept
            Sample.grafana (str "ops")
            (useDeleteContactPoint Sample.namespace Sample.legacy Sample.accept
               Sample.grafana (str "ops") Sample.world).2).2
  = [UpdateAlertmanagerConfiguration Sample.grafana
       (withoutReceiver (str "ops") Sample.config);
     UpdateAlertmanagerConfiguration Sample.grafana
       (withoutReceiver (str "ops") Sample.config)].
Proof.
  rewrite (useDeleteContactPoint_twice Sample.namespace Sample.legacy Sample.accept
             Sample.grafana (str "ops") Sample.world Sample.config (str "ok"));
    reflexivity.
Defined.

Lemma useK8sContactPoints_returns_iff_witness :
  (exists normalised,
      useK8sContactPoints Sample.generatedReceiversApi Sample.notProvisioned
        Sample.namespace false = Ok normalised) <->
  Forall (fun item => is_Some (metadata item)) [Sample.k8sItem].
Proof.
  apply (useK8sContactPoints_returns_iff Sample.generatedReceiversApi
           Sample.notProvisioned Sample.namespace false {| items := [Sample.k8sItem] |}).
  reflexivity.
Defined.

Lemma useK8sContactPoints_in_order_witness :
  exists normalised parsed,
    useK8sContactPoints Sample.generatedReceiversApi Sample.notProvisioned
      Sample.namespace false = Ok normalised /\
    data normalised = Some parsed /\
    name <$> parsed = [str "ops"].
Proof.
  eexists.
  destruct (useK8sContactPoints_in_order Sample.generatedReceiversApi
              Sample.notProvisioned Sample.namespace false
              {| items := [Sample.k8sItem] |} _ eq_refl eq_refl)
    as (parsed & Hdata & Hnames & _).
  exists parsed. split; [reflexivity|]. split; [exact Hdata|exact Hnames].
Defined.

Lemma useFetchGrafanaContactPoints_legacy_passthrough_witness :
  exists fetched,
    useFetchGrafanaContactPoints Sample.alertmanagerApi Sample.generatedReceiversApi
      Sample.grafana Sample.namespace Sample.notProvisioned Sample.legacy None
      = Ok fetched /\
    isLoading fetched = false.
Proof.
  eexists. split; [reflexivity|].
  apply (useFetchGrafanaContactPoints_legacy_passthrough Sample.alertmanagerApi
           Sample.generatedReceiversApi Sample.grafana Sample.namespace
           Sample.notProvisioned Sample.legacy None); reflexivity.
Defined.

Lemma useGrafanaContactPoints_loading_is_empty_witness :
  exists result,
    useGrafanaContactPoints Sample.waitingApi Sample.onCallApi Sample.idleReceiversApi
      Sample.usePluginBridge Sample.enhance Sample.grafana Sample.namespace
      Sample.notProvisioned Sample.legacy None None None = Ok result /\
    isLoading (response result) = true /\
    contactPoints result = [].
Proof.
  eexists. split; [reflexivity|]. split; [reflexivity|].
  apply (useGrafanaContactPoints_loading_is_empty Sample.waitingApi Sample.onCallApi
           Sample.idleReceiversApi Sample.usePluginBridge Sample.enhance Sample.grafana
           Sample.namespace Sample.notProvisioned Sample.legacy None None None);
    reflexivity.
Defined.

Lemma useGrafanaContactPoints_returns_witness :
  exists result,
    useGrafanaContactPoints Sample.alertmanagerApi Sample.onCallApi
      Sample.idleReceiversApi Sample.usePluginBridge Sample.enhance Sample.grafana
      Sample.namespace Sample.notProvisioned Sample.structured None None None
    = Ok result.
Proof.
  apply (useGrafanaContactPoints_returns Sample.alertmanagerApi Sample.onCallApi
           Sample.idleReceiversApi Sample.usePluginBridge Sample.enhance Sample.grafana
           Sample.namespace Sample.notProvisioned Sample.structured None None None).
  reflexivity.
Defined.

Lemma lookup_plain_names_witness :
  sameDecodedName (str "ops") (Sample.receiver "ops" [Sample.webhook]) = Ok true /\
  sameDecodedName (str "ops") (Sample.receiver "dev" []) = Ok false.
Proof.
  split.
  - apply (lookup_plain_names (str "ops") (Sample.receiver "ops" [Sample.webhook]));
      compute_done.
  - apply (lookup_plain_names (str "ops") (Sample.receiver "dev" [])); compute_done.
Defined.

Lemma lookup_malformed_query_witness :
  decodeURIComponent (str "100%") = Throw URIError /\
  useGetAlertmanagerContactPoint Sample.alertmanagerApi Sample.grafana (str "100%") false
    = Throw URIError.
Proof.
  split; [reflexivity|].
  apply (lookup_malformed_query Sample.alertmanagerApi Sample.grafana (str "100%") false
           Sample.config (Sample.receiver "a b" [Sample.email])
           [Sample.receiver "ops" [Sample.webhook]; Sample.receiver "dev" []] URIError);
    reflexivity.
Defined.

Lemma lookup_nothing_to_search_witness :
  useGetAlertmanagerContactPoint Sample.waitingApi Sample.grafana (str "100%") false
    = Ok {| isLoading := true; data := None; error := None |}.
Proof.
  apply (lookup_nothing_to_search Sample.waitingApi Sample.grafana (str "100%") false).
  left. reflexivity.
Defined.

Lemma useGetContactPoint_external_witness :
  Sample.mimir <> Sample.grafana /\
  exists selected,
    useGetContactPoint Sample.alertmanagerApi Sample.generatedReceiversApi Sample.grafana
      Sample.namespace Sample.notProvisioned Sample.legacy Sample.mimir (str "ops")
      = Ok selected /\
    useGetAlertmanagerContactPoint Sample.alertmanagerApi Sample.mimir (str "ops") false
      = Ok selected.
Proof.
  split; [discriminate|]. eexists. split; [reflexivity|].
  apply (useGetContactPoint_external Sample.alertmanagerApi Sample.generatedReceiversApi
           Sample.grafana Sample.namespace Sample.notProvisioned Sample.legacy
           Sample.mimir (str "ops")); [discriminate|reflexivity].
Defined.

Lemma useGetContactPoint_grafana_witness :
  exists selected cp,
    useGetContactPoint Sample.alertmanagerApi Sample.generatedReceiversApi Sample.grafana
      Sample.namespace Sample.notProvisioned Sample.structured Sample.grafana (str "b3Bz")
      = Ok selected /\
    parseK8sReceiver Sample.notProvisioned Sample.k8sItem = Ok cp /\
    data selected = Some cp.
Proof.
  eexists.
  destruct (useGetContactPoint_grafana Sample.alertmanagerApi
              Sample.generatedReceiversApi Sample.grafana Sample.namespace
              Sample.notProvisioned Sample.structured (str "b3Bz") _ eq_refl)
    as (cp & Hparse & Hdata).
  exists cp. split; [reflexivity|]. split; [exact Hparse|exact Hdata].
Defined.

Lemma useContactPointsWithStatus_external_witness :
  exists result external,
    useContactPointsWithStatus Sample.alertmanagerApi Sample.onCallApi
      Sample.generatedReceiversApi Sample.usePluginBridge Sample.enhance Sample.grafana
      Sample.namespace Sample.notProvisioned Sample.legacy tt Sample.mimir None None
      = Ok result /\
    result = inr external /\
    response external = Sample.settled Sample.config.
Proof.
  eexists.
  destruct (useContactPointsWithStatus_external Sample.alertmanagerApi Sample.onCallApi
              Sample.generatedReceiversApi Sample.usePluginBridge Sample.enhance
              Sample.grafana Sample.namespace Sample.notProvisioned Sample.legacy tt
              Sample.mimir None None _ ltac:(discriminate) eq_refl)
    as (external & Hresult & Hresponse & _).
  exists external. split; [reflexivity|]. split; [exact Hresult|exact Hresponse].
Defined.

Lemma createOrUpdateInConfiguration_external_witness :
  Sample.mimir <> Sample.grafana /\
  createOrUpdateInConfiguration Sample.grafana Sample.provisionOnCall Sample.merge
    Sample.updateAction Sample.invalidate Sample.invalidate Sample.mimir Sample.create
    Sample.offline = (Throw RequestFailed, Sample.offline).
Proof.
  split; [discriminate|].
  apply (createOrUpdateInConfiguration_external Sample.grafana Sample.provisionOnCall
           Sample.merge Sample.updateAction Sample.invalidate Sample.invalidate
           Sample.mimir Sample.create Sample.offline); [discriminate|reflexivity].
Defined.

Lemma useCreateOrUpdateContactPoint_k8s_outcome_witness :
  Sample.structured Sample.grafana = true /\
  configs (useCreateOrUpdateContactPoint Sample.namespace Sample.structured Sample.refuse
             Sample.noLegacyWrite Sample.grafana Sample.create Sample.world).2
    = configs Sample.world /\
  (useCreateOrUpdateContactPoint Sample.namespace Sample.structured Sample.refuse
     Sample.noLegacyWrite Sample.grafana Sample.create Sample.world).1
    = Throw RequestFailed.
Proof.
  split; [reflexivity|].
  destruct (useCreateOrUpdateContactPoint_k8s_outcome Sample.namespace Sample.structured
              Sample.refuse Sample.noLegacyWrite Sample.grafana Sample.create Sample.world
              eq_refl) as (Hconfigs & Hcreate & _).
  split; [exact Hconfigs|exact (Hcreate eq_refl)].
Defined.
